(** * The Reliability Layer of the SyncFit mobile client

    A shallow embedding of [src/android/app/src/services/reliability.ts]:
    the pending-operation queue, [performOperation], the drain loop of
    [syncPendingOperations], [updateLocalMirror] and [manualSync], together
    with the collaborators the class talks to (transport, AsyncStorage,
    Firestore, the clock, the random source and the console).

    The class is asynchronous but single threaded.  Every public method is
    modelled as one uninterrupted computation over an explicit world; the
    world can be any state of the class, in particular one observed while
    another call is suspended ([syncInProgress = true]).  The constructor
    (initial load from AsyncStorage, NetInfo subscription) is not embedded:
    a change of connectivity is an update of [isOnline], and the queue
    holds what the class itself has put there. *)

From stdpp Require Import base tactics option list numbers strings pretty sorting.
From Stdlib Require Import ZArith Lia Ascii.

Local Open Scope Z_scope.

(** ** Data model *)

(** Payloads ([body: any], [data?: T]) as JSON values; numbers are integers. *)
#[warnings="-register-all"]
Inductive Json : Type :=
  | JNull
  | JBool (b : bool)
  | JNum (n : Z)
  | JStr (s : string)
  | JArr (items : list Json)
  | JObj (fields : list (string * Json)).

(** JavaScript truthiness of a value. *)
Definition truthy (v : Json) : bool :=
  match v with
  | JNull => false
  | JBool b => b
  | JNum n => negb (n =? 0)%Z
  | JStr s => negb (String.eqb s EmptyString)
  | JArr _ | JObj _ => true
  end.

(** [v.name]: the last binding wins, a missing property is [undefined]. *)
Fixpoint lookup_field (name : string) (fields : list (string * Json)) : option Json :=
  match fields with
  | [] => None
  | (k, v) :: rest =>
      match lookup_field name rest with
      | Some v' => Some v'
      | None => if String.eqb k name then Some v else None
      end
  end.

Definition property (v : Json) (name : string) : option Json :=
  match v with
  | JObj fields => lookup_field name fields
  | _ => None
  end.

Definition truthy_opt (v : option Json) : bool :=
  match v with Some j => truthy j | None => false end.

Inductive Method : Type := POST | PUT | DELETE.
Inductive Priority : Type := high | medium | low.

Definition method_name (m : Method) : string :=
  match m with POST => "POST" | PUT => "PUT" | DELETE => "DELETE" end.

(** [interface PendingOperation].  [retryCount] starts at 0 and only ever
    grows by [++], so it is a natural number; timestamps are epoch
    milliseconds. *)
Record PendingOperation : Type := mkOp {
  id : string;
  endpoint : string;
  method : Method;
  body : Json;
  timestamp : Z;
  retryCount : nat;
  priority : Priority
}.

Definition PENDING_OPERATIONS_KEY : string := "syncfit_pending_operations".
Definition MAX_RETRY_ATTEMPTS : nat := 5.
Definition RETRY_BACKOFF_MS : Z := 1000.

(** [interface ApiResponse] of [services/api.ts]. *)
Record ApiResponse : Type := mkResponse {
  status : Z;
  resp_data : option Json;
  resp_error : option string
}.

(** What the transport is handed: [api.post(endpoint, body)],
    [api.put(endpoint, body)], [api.delete(endpoint)]. *)
Record Request : Type := mkRequest {
  req_method : Method;
  req_endpoint : string;
  req_body : option Json
}.

(** A thrown value: an [Error] instance with its message, or anything else. *)
Inductive Thrown : Type :=
  | ErrorInstance (message : string)
  | NotAnError (v : Json).

Inductive ApiOutcome : Type :=
  | Returns (r : ApiResponse)
  | Rejects (e : Thrown).

(** The value [performOperation] resolves to:
    [{ success: boolean; data?: T; error?: string; queued?: boolean }]. *)
Record OperationResult : Type := mkResult {
  success : bool;
  data : option Json;
  error : option string;
  queued : option bool
}.

(** The [options] argument; an absent property is [None]. *)
Record Options : Type := mkOptions {
  opt_priority : option Priority;
  opt_offlineSupport : option bool;
  opt_syncTarget : option string
}.

Definition no_options : Options := mkOptions None None None.

(** ** Console

    Each [console.log] / [console.error] of the class is one constructor
    that carries the values interpolated into the message. *)
Inductive ConsoleLine : Type :=
  | FailedToSave (e : Thrown)
  | QueuedForLater (m : Method) (ep : string)
  | ServerErrorQueued (m : Method) (ep : string)
  | NetworkErrorQueued (m : Method) (ep : string)
  | SyncAlreadyInProgressSkipping
  | CannotSyncOffline
  | SkippingSyncTooSoon
  | StartingSync (n : nat)
  | ExceededMaxRetry (opid : string)
  | WaitingForBackoff (opid : string) (delay : Z)
  | ExecutingOperation (m : Method) (ep : string)
  | OperationSucceeded (opid : string)
  | OperationFailed (opid : string) (err : option string)
  | ErrorExecuting (opid : string) (e : Thrown)
  | SyncCompleted (succeeded failed pending : nat)
  | ErrorDuringSync (e : Thrown)
  | ErrorUpdatingMirror (e : Thrown)
  | SyncAlreadyInProgress.

(** A [docRef.set({...data, localTimestamp}, {merge: true})] on Firestore;
    the document is named by the value whose string form the source passes
    to [doc]. *)
Record MirrorWrite : Type := mkMirrorWrite {
  collection : string;
  doc_key : Json;
  doc_data : Json
}.

(** ** World *)

(** The private fields of [class ReliabilityLayer]. *)
Record Layer : Type := mkLayer {
  isOnline : bool;
  pendingOperations : list PendingOperation;
  syncInProgress : bool;
  lastSyncAttempt : Z
}.

(** The collaborators: what AsyncStorage holds under
    [PENDING_OPERATIONS_KEY], the calls received so far by AsyncStorage,
    the transport and Firestore, the console, and how many times the clock
    and the random source have been read. *)
Record Outside : Type := mkOutside {
  storage : option (list PendingOperation);
  setItemCalls : list (list PendingOperation);
  requests : list Request;
  mirrorWrites : list MirrorWrite;
  console : list ConsoleLine;
  clockReads : nat;
  randomReads : nat
}.

Record World : Type := mkWorld {
  layer : Layer;
  outside : Outside
}.

(** The behaviour of the collaborators, each a function of how many calls
    it has already served. *)
Record Env : Type := mkEnv {
  api_request : nat -> Request -> ApiOutcome;
  storage_setItem : nat -> option Thrown;
  firestore_set : nat -> option Thrown;
  date_now : nat -> Z;
  math_random : nat -> string
}.

(** The initial field values of the class, nothing persisted. *)
Definition initial_layer : Layer := mkLayer true [] false 0.
Definition initial_outside : Outside := mkOutside None [] [] [] [] 0 0.
Definition initial_world : World := mkWorld initial_layer initial_outside.

Definition queue (w : World) : list PendingOperation := pendingOperations (layer w).

(** Field updates. *)
Definition with_isOnline (b : bool) (l : Layer) : Layer :=
  mkLayer b (pendingOperations l) (syncInProgress l) (lastSyncAttempt l).
Definition with_pendingOperations (q : list PendingOperation) (l : Layer) : Layer :=
  mkLayer (isOnline l) q (syncInProgress l) (lastSyncAttempt l).
Definition with_syncInProgress (b : bool) (l : Layer) : Layer :=
  mkLayer (isOnline l) (pendingOperations l) b (lastSyncAttempt l).
Definition with_lastSyncAttempt (t : Z) (l : Layer) : Layer :=
  mkLayer (isOnline l) (pendingOperations l) (syncInProgress l) t.

Definition on_layer (f : Layer -> Layer) (w : World) : World :=
  mkWorld (f (layer w)) (outside w).
Definition on_outside (f : Outside -> Outside) (w : World) : World :=
  mkWorld (layer w) (f (outside w)).

(** ** Computations: state and exceptions *)

Inductive Completion (A : Type) : Type :=
  | Normal (a : A)
  | Throw (e : Thrown).
Arguments Normal {A} a.
Arguments Throw {A} e.

Definition Js (A : Type) : Type := World -> Completion A * World.

Definition ret {A} (a : A) : Js A := fun w => (Normal a, w).

Definition bind {A B} (m : Js A) (k : A -> Js B) : Js B :=
  fun w =>
    match m w with
    | (Normal a, w') => k a w'
    | (Throw e, w') => (Throw e, w')
    end.

Definition throw {A} (e : Thrown) : Js A := fun w => (Throw e, w).

(** [try { m } catch (e) { h e }] *)
Definition try_catch {A} (m : Js A) (h : Thrown -> Js A) : Js A :=
  fun w =>
    match m w with
    | (Normal a, w') => (Normal a, w')
    | (Throw e, w') => h e w'
    end.

(** [try { m } finally { f }] *)
Definition try_finally {A} (m : Js A) (f : Js unit) : Js A :=
  fun w =>
    match m w with
    | (c, w') =>
        match f w' with
        | (Normal _, w'') => (c, w'')
        | (Throw e, w'') => (Throw e, w'')
        end
    end.

Definition gets {A} (f : Layer -> A) : Js A := fun w => (Normal (f (layer w)), w).
Definition update (f : Layer -> Layer) : Js unit := fun w => (Normal tt, on_layer f w).

Declare Scope js_scope.
Delimit Scope js_scope with js.
Notation "'let*' x ':=' c1 'in' c2" := (bind c1 (fun x => c2))
  (at level 10, x pattern, c1 at level 100, c2 at level 200) : js_scope.
Notation "c1 ';;' c2" := (bind c1 (fun _ => c2))
  (at level 100, c2 at level 200, right associativity) : js_scope.
Local Open Scope js_scope.

(** ** Collaborators *)

Definition console_log (line : ConsoleLine) : Js unit :=
  fun w =>
    (Normal tt,
     on_outside (fun o => mkOutside (storage o) (setItemCalls o) (requests o) (mirrorWrites o)
                            (console o ++ [line]) (clockReads o) (randomReads o)) w).

Section Collaborators.
Variable env : Env.

(** [Date.now()] *)
Definition Date_now : Js Z :=
  fun w =>
    (Normal (date_now env (clockReads (outside w))),
     on_outside (fun o => mkOutside (storage o) (setItemCalls o) (requests o) (mirrorWrites o)
                            (console o) (S (clockReads o)) (randomReads o)) w).

(** [Math.random().toString(36).substr(2, 9)] *)
Definition Math_random_suffix : Js string :=
  fun w =>
    (Normal (math_random env (randomReads (outside w))),
     on_outside (fun o => mkOutside (storage o) (setItemCalls o) (requests o) (mirrorWrites o)
                            (console o) (clockReads o) (S (randomReads o))) w).

(** [await AsyncStorage.setItem(PENDING_OPERATIONS_KEY, JSON.stringify(ops))]:
    a write that resolves replaces the stored list, one that rejects
    leaves it as it was. *)
Definition AsyncStorage_setItem (ops : list PendingOperation) : Js unit :=
  fun w =>
    let o := outside w in
    match storage_setItem env (length (setItemCalls o)) with
    | None =>
        (Normal tt,
         mkWorld (layer w)
           (mkOutside (Some ops) (setItemCalls o ++ [ops]) (requests o) (mirrorWrites o)
              (console o) (clockReads o) (randomReads o)))
    | Some e =>
        (Throw e,
         mkWorld (layer w)
           (mkOutside (storage o) (setItemCalls o ++ [ops]) (requests o) (mirrorWrites o)
              (console o) (clockReads o) (randomReads o)))
    end.

(** One call of the transport. *)
Definition api_call (r : Request) : Js ApiResponse :=
  fun w =>
    let o := outside w in
    let w' :=
      mkWorld (layer w)
        (mkOutside (storage o) (setItemCalls o) (requests o ++ [r]) (mirrorWrites o)
           (console o) (clockReads o) (randomReads o)) in
    match api_request env (length (requests o)) r with
    | Returns resp => (Normal resp, w')
    | Rejects e => (Throw e, w')
    end.

Definition api_post (ep : string) (b : Json) : Js ApiResponse :=
  api_call (mkRequest POST ep (Some b)).
Definition api_put (ep : string) (b : Json) : Js ApiResponse :=
  api_call (mkRequest PUT ep (Some b)).
Definition api_delete (ep : string) : Js ApiResponse :=
  api_call (mkRequest DELETE ep None).

(** [await firestore.collection(c).doc(k).set(...)] *)
Definition firestore_doc_set (c : string) (k d : Json) : Js unit :=
  fun w =>
    let o := outside w in
    let w' :=
      mkWorld (layer w)
        (mkOutside (storage o) (setItemCalls o) (requests o)
           (mirrorWrites o ++ [mkMirrorWrite c k d])
           (console o) (clockReads o) (randomReads o)) in
    match firestore_set env (length (mirrorWrites o)) with
    | None => (Normal tt, w')
    | Some e => (Throw e, w')
    end.

(** [await new Promise(resolve => setTimeout(resolve, ms))]: a suspension
    that touches nothing the class or its collaborators hold. *)
Definition sleep (ms : Z) : Js unit := ret tt.

End Collaborators.

(** ** The class *)

Section ReliabilityLayer.
Variable env : Env.

(** [private async savePendingOperations()] *)
Definition savePendingOperations : Js unit :=
  try_catch
    (let* ops := gets pendingOperations in
     AsyncStorage_setItem env ops)
    (fun e => console_log (FailedToSave e)).

(** [private async updateLocalMirror(collectionKey, data)] *)
Definition updateLocalMirror (collectionKey : string) (d : Json) : Js unit :=
  try_catch
    (if String.eqb collectionKey "scheduledWorkouts" && truthy_opt (property d "id") then
       firestore_doc_set env "scheduledWorkouts" (default JNull (property d "id")) d
     else if String.eqb collectionKey "calendar" && truthy_opt (property d "eventId") then
       firestore_doc_set env "calendarEvents" (default JNull (property d "eventId")) d
     else ret tt)
    (fun e => console_log (ErrorUpdatingMirror e)).

(** The [switch (method)] that picks the transport call. *)
Definition send (m : Method) (ep : string) (b : Json) : Js ApiResponse :=
  match m with
  | POST => api_post env ep b
  | PUT => api_put env ep b
  | DELETE => api_delete env ep
  end.

Definition is_2xx (r : ApiResponse) : bool :=
  (200 <=? status r)%Z && (status r <? 300)%Z.

(** The block the source writes out three times (lines 120-131, 162-173
    and 182-193): build the [PendingOperation], push it, save. *)
Definition pushPending (operationId ep : string) (m : Method) (b : Json) (p : Priority)
  : Js unit :=
  let* t := Date_now env in
  let pendingOperation := mkOp operationId ep m b t 0%nat p in
  update (fun l => with_pendingOperations (pendingOperations l ++ [pendingOperation]) l);;
  savePendingOperations.

(** [result.error || 'Server error'] *)
Definition error_or (e : option string) (fallback : string) : string :=
  match e with
  | Some s => if String.eqb s EmptyString then fallback else s
  | None => fallback
  end.

(** [error instanceof Error ? error.message : 'Network error'] *)
Definition error_message (e : Thrown) : string :=
  match e with
  | ErrorInstance msg => msg
  | NotAnError _ => "Network error"
  end.

(** [async performOperation<T>(endpoint, method, body, options = {})] *)
Definition performOperation (ep : string) (m : Method) (b : Json) (options : Options)
  : Js OperationResult :=
  let priority := default medium (opt_priority options) in
  let offlineSupport := default true (opt_offlineSupport options) in
  let syncTarget := opt_syncTarget options in
  let* t0 := Date_now env in
  let* suffix := Math_random_suffix env in
  let operationId := method_name m +:+ "_" +:+ ep +:+ "_" +:+ pretty t0 +:+ "_" +:+ suffix in
  let* online := gets isOnline in
  if negb online && offlineSupport then
    pushPending operationId ep m b priority;;
    console_log (QueuedForLater m ep);;
    ret (mkResult false None None (Some true))
  else
    try_catch
      (let* result := send m ep b in
       if is_2xx result then
         (match syncTarget, resp_data result with
          | Some target, Some d =>
              if negb (String.eqb target EmptyString) && truthy d
              then updateLocalMirror target d else ret tt
          | _, _ => ret tt
          end);;
         ret (mkResult true (resp_data result) None None)
       else
         (if offlineSupport then
            pushPending operationId ep m b priority;;
            console_log (ServerErrorQueued m ep)
          else ret tt);;
         ret (mkResult false None (Some (error_or (resp_error result) "Server error")) None))
      (fun e =>
         (if offlineSupport then
            pushPending operationId ep m b priority;;
            console_log (NetworkErrorQueued m ep)
          else ret tt);;
         ret (mkResult false None (Some (error_message e)) None)).

(** The comparator handed to [this.pendingOperations.sort]. *)
Definition priorityOrder (p : Priority) : Z :=
  match p with high => 0 | medium => 1 | low => 2 end.

Definition compareOperations (a b : PendingOperation) : Z :=
  if negb (priorityOrder (priority a) =? priorityOrder (priority b))%Z then
    priorityOrder (priority a) - priorityOrder (priority b)
  else timestamp a - timestamp b.

(** [Array.prototype.sort(cmp)], a stable sort: an element goes in front
    of the first later element it does not compare greater than. *)
Fixpoint sort_insert {A} (cmp : A -> A -> Z) (x : A) (l : list A) : list A :=
  match l with
  | [] => [x]
  | y :: l' => if (cmp x y <=? 0)%Z then x :: y :: l' else y :: sort_insert cmp x l'
  end.

Fixpoint Array_sort {A} (cmp : A -> A -> Z) (l : list A) : list A :=
  match l with
  | [] => []
  | x :: l' => sort_insert cmp x (Array_sort cmp l')
  end.

(** [Array.prototype.includes] on strings. *)
Definition includes (l : list string) (x : string) : bool :=
  existsb (String.eqb x) l.

(** [operation.retryCount++; operation.timestamp = now] *)
Definition retried (now : Z) (op : PendingOperation) : PendingOperation :=
  mkOp (id op) (endpoint op) (method op) (body op) now (S (retryCount op)) (priority op).

(** The same two assignments seen from the queue.  [operationsToProcess]
    is a copy of the array, not of its elements: its [i]-th element is
    the very object that sits at index [i] of [this.pendingOperations],
    so the assignment changes the queue at that index. *)
Definition retry_later (now : Z) (i : nat) : Js unit :=
  update (fun l => with_pendingOperations (alter (retried now) i (pendingOperations l)) l).

(** [for (const operation of operationsToProcess) { ... }], the element
    at hand being the [i]-th of the snapshot; the two local arrays are
    threaded through. *)
Fixpoint processOperations (now : Z) (operationsToProcess : list PendingOperation) (i : nat)
    (successfulOperations failedOperations : list string)
  : Js (list string * list string) :=
  match operationsToProcess with
  | [] => ret (successfulOperations, failedOperations)
  | operation :: rest =>
      let backoffDelay := RETRY_BACKOFF_MS * 2 ^ Z.of_nat (retryCount operation) in
      if (MAX_RETRY_ATTEMPTS <=? retryCount operation)%nat then
        console_log (ExceededMaxRetry (id operation));;
        processOperations now rest (S i)
          successfulOperations (failedOperations ++ [id operation])
      else if (0 <? retryCount operation)%nat
              && (now - timestamp operation <? backoffDelay)%Z then
        console_log (WaitingForBackoff (id operation) backoffDelay);;
        processOperations now rest (S i) successfulOperations failedOperations
      else
        let* marks :=
          try_catch
            (console_log (ExecutingOperation (method operation) (endpoint operation));;
             let* result := send (method operation) (endpoint operation) (body operation) in
             if is_2xx result then
               console_log (OperationSucceeded (id operation));;
               ret (successfulOperations ++ [id operation], failedOperations)
             else
               console_log (OperationFailed (id operation) (resp_error result));;
               retry_later now i;;
               if (MAX_RETRY_ATTEMPTS <=? S (retryCount operation))%nat then
                 ret (successfulOperations, failedOperations ++ [id operation])
               else ret (successfulOperations, failedOperations))
            (fun e =>
               console_log (ErrorExecuting (id operation) e);;
               retry_later now i;;
               if (MAX_RETRY_ATTEMPTS <=? S (retryCount operation))%nat then
                 ret (successfulOperations, failedOperations ++ [id operation])
               else ret (successfulOperations, failedOperations)) in
        sleep 100;;
        processOperations now rest (S i) (fst marks) (snd marks)
  end.

(** The predicate of the final [filter]. *)
Definition still_pending (successfulOperations failedOperations : list string)
    (op : PendingOperation) : bool :=
  negb (includes successfulOperations (id op)) && negb (includes failedOperations (id op)).

(** [async syncPendingOperations()] *)
Definition syncPendingOperations : Js unit :=
  let* inProgress := gets syncInProgress in
  if inProgress then console_log SyncAlreadyInProgressSkipping
  else
    let* online := gets isOnline in
    if negb online then console_log CannotSyncOffline
    else
      let* now := Date_now env in
      let* last := gets lastSyncAttempt in
      if (now - last <? 5000)%Z then console_log SkippingSyncTooSoon
      else
        update (with_syncInProgress true);;
        update (with_lastSyncAttempt now);;
        try_finally
          (try_catch
             (let* n := gets (fun l => length (pendingOperations l)) in
              console_log (StartingSync n);;
              update (fun l =>
                with_pendingOperations (Array_sort compareOperations (pendingOperations l)) l);;
              let* operationsToProcess := gets pendingOperations in
              let* marks := processOperations now operationsToProcess 0 [] [] in
              update (fun l =>
                with_pendingOperations
                  (List.filter (still_pending (fst marks) (snd marks)) (pendingOperations l)) l);;
              savePendingOperations;;
              let* pending := gets (fun l => length (pendingOperations l)) in
              console_log (SyncCompleted (length (fst marks)) (length (snd marks)) pending))
             (fun e => console_log (ErrorDuringSync e)))
          (update (with_syncInProgress false)).

(** [async manualSync(): Promise<boolean>] *)
Definition manualSync : Js bool :=
  let* online := gets isOnline in
  if negb online then console_log CannotSyncOffline;; ret false
  else
    let* inProgress := gets syncInProgress in
    if inProgress then console_log SyncAlreadyInProgress;; ret false
    else syncPendingOperations;; ret true.

End ReliabilityLayer.

(** * Summaries

    The methods above are the class.  What follows restates, as plain
    functions of the starting world, what a call leaves behind; the lemmas
    [processOperations_run], [syncPendingOperations_guards],
    [performOperation_run] and [manualSync_run] prove that the methods
    compute exactly these, and the claims are then settled on them. *)

(** ** One pass of the loop

    Each iteration is summarised by what it leaves behind: the element as
    it stands afterwards, whether a request went out, whether the id was
    pushed on [successfulOperations] or on [failedOperations], and the
    console lines written. *)

Definition request_of (op : PendingOperation) : Request :=
  match method op with
  | POST => mkRequest POST (endpoint op) (Some (body op))
  | PUT => mkRequest PUT (endpoint op) (Some (body op))
  | DELETE => mkRequest DELETE (endpoint op) None
  end.

Definition backoffDelay (op : PendingOperation) : Z :=
  RETRY_BACKOFF_MS * 2 ^ Z.of_nat (retryCount op).

(** The element is past the retry ceiling when its iteration starts. *)
Definition expired (op : PendingOperation) : bool :=
  (MAX_RETRY_ATTEMPTS <=? retryCount op)%nat.

(** The element is still waiting for its backoff delay at time [now]. *)
Definition waiting (now : Z) (op : PendingOperation) : bool :=
  (0 <? retryCount op)%nat && (now - timestamp op <? backoffDelay op)%Z.

(** The iteration reaches the transport. *)
Definition due (now : Z) (op : PendingOperation) : bool :=
  negb (expired op) && negb (waiting now op).

Record Turn : Type := mkTurn {
  after : PendingOperation;
  sent : bool;
  succeeded : bool;
  given_up : bool;
  lines : list ConsoleLine
}.

Definition turn (env : Env) (now : Z) (served : nat) (op : PendingOperation) : Turn :=
  if expired op then mkTurn op false false true [ExceededMaxRetry (id op)]
  else if waiting now op then
    mkTurn op false false false [WaitingForBackoff (id op) (backoffDelay op)]
  else
    match api_request env served (request_of op) with
    | Returns r =>
        if is_2xx r then
          mkTurn op true true false
            [ExecutingOperation (method op) (endpoint op); OperationSucceeded (id op)]
        else
          mkTurn (retried now op) true false (MAX_RETRY_ATTEMPTS <=? S (retryCount op))%nat
            [ExecutingOperation (method op) (endpoint op);
             OperationFailed (id op) (resp_error r)]
    | Rejects e =>
        mkTurn (retried now op) true false (MAX_RETRY_ATTEMPTS <=? S (retryCount op))%nat
          [ExecutingOperation (method op) (endpoint op); ErrorExecuting (id op) e]
    end.

Fixpoint turns (env : Env) (now : Z) (served : nat) (ops : list PendingOperation)
  : list Turn :=
  match ops with
  | [] => []
  | op :: rest =>
      let t := turn env now served op in
      t :: turns env now (if sent t then S served else served) rest
  end.

Definition ids_where (p : Turn -> bool) (ts : list Turn) : list string :=
  map (fun t => id (after t)) (List.filter p ts).

Definition requests_of (ts : list Turn) : list Request :=
  map (fun t => request_of (after t)) (List.filter sent ts).

Definition lines_of (ts : list Turn) : list ConsoleLine :=
  concat (map lines ts).

(** The world after the loop: a new queue, more requests, more lines. *)
Definition looped (q : list PendingOperation) (rs : list Request) (ls : list ConsoleLine)
    (w : World) : World :=
  let o := outside w in
  mkWorld (with_pendingOperations q (layer w))
    (mkOutside (storage o) (setItemCalls o) (requests o ++ rs) (mirrorWrites o)
       (console o ++ ls) (clockReads o) (randomReads o)).

(** ** One call of [syncPendingOperations] *)

(** What [Date.now()] returns when it is read next. *)
Definition time_of (env : Env) (w : World) : Z := date_now env (clockReads (outside w)).

Definition sorted_queue (w : World) : list PendingOperation :=
  Array_sort compareOperations (queue w).

Definition pass_turns (env : Env) (w : World) : list Turn :=
  turns env (time_of env w) (length (requests (outside w))) (sorted_queue w).

Definition survivors (env : Env) (w : World) : list PendingOperation :=
  let ts := pass_turns env w in
  List.filter (still_pending (ids_where succeeded ts) (ids_where given_up ts)) (map after ts).

(** The three guards all let the call through. *)
Definition lets_through (env : Env) (w : World) : bool :=
  negb (syncInProgress (layer w)) && isOnline (layer w)
  && negb (time_of env w - lastSyncAttempt (layer w) <? 5000)%Z.

(** The world a call that gets past the guards leaves behind. *)
Definition drained (env : Env) (w : World) : World :=
  let o := outside w in
  let ts := pass_turns env w in
  let kept := survivors env w in
  let saved := storage_setItem env (length (setItemCalls o)) in
  mkWorld
    (mkLayer (isOnline (layer w)) kept false (time_of env w))
    (mkOutside
       (match saved with None => Some kept | Some _ => storage o end)
       (setItemCalls o ++ [kept])
       (requests o ++ requests_of ts)
       (mirrorWrites o)
       (console o ++ [StartingSync (length (queue w))] ++ lines_of ts
          ++ match saved with None => [] | Some e => [FailedToSave e] end
          ++ [SyncCompleted (length (ids_where succeeded ts))
                (length (ids_where given_up ts)) (length kept)])
       (S (clockReads o)) (randomReads o)).

(** The world a call stopped by a guard leaves behind: one more console
    line, and one more reading of the clock when the first two guards let
    it through. *)
Definition turned_away (line : ConsoleLine) (clock_read : bool) (w : World) : World :=
  let o := outside w in
  mkWorld (layer w)
    (mkOutside (storage o) (setItemCalls o) (requests o) (mirrorWrites o)
       (console o ++ [line]) (if clock_read then S (clockReads o) else clockReads o)
       (randomReads o)).

(** ** One call of [performOperation] *)

(** The id the call builds from its first readings of the clock and of the
    random source. *)
Definition operation_id (env : Env) (m : Method) (ep : string) (w : World) : string :=
  method_name m +:+ "_" +:+ ep +:+ "_" +:+ pretty (time_of env w) +:+ "_"
    +:+ math_random env (randomReads (outside w)).

(** The [PendingOperation] the call builds when it queues; its timestamp is
    the second reading of the clock. *)
Definition fresh_operation (env : Env) (ep : string) (m : Method) (b : Json)
    (options : Options) (w : World) : PendingOperation :=
  mkOp (operation_id env m ep w) ep m b (date_now env (S (clockReads (outside w))))
    0%nat (default medium (opt_priority options)).

Definition offlineSupport_of (options : Options) : bool :=
  default true (opt_offlineSupport options).

Definition request_for (m : Method) (ep : string) (b : Json) : Request :=
  match m with
  | POST => mkRequest POST ep (Some b)
  | PUT => mkRequest PUT ep (Some b)
  | DELETE => mkRequest DELETE ep None
  end.

(** The world after the first two lines of the call: the clock and the
    random source have been read once each. *)
Definition stamped (w : World) : World :=
  let o := outside w in
  mkWorld (layer w)
    (mkOutside (storage o) (setItemCalls o) (requests o) (mirrorWrites o) (console o)
       (S (clockReads o)) (S (randomReads o))).

(** The world after the transport has been handed [r]. *)
Definition requested (r : Request) (w : World) : World :=
  let o := outside w in
  mkWorld (layer w)
    (mkOutside (storage o) (setItemCalls o) (requests o ++ [r]) (mirrorWrites o) (console o)
       (clockReads o) (randomReads o)).

(** The world after the push-and-save block followed by its console line. *)
Definition pushed (env : Env) (opid ep : string) (m : Method) (b : Json) (p : Priority)
    (line : ConsoleLine) (w : World) : World :=
  let o := outside w in
  let q := queue w ++ [mkOp opid ep m b (date_now env (clockReads o)) 0%nat p] in
  let saved := storage_setItem env (length (setItemCalls o)) in
  mkWorld (with_pendingOperations q (layer w))
    (mkOutside
       (match saved with None => Some q | Some _ => storage o end)
       (setItemCalls o ++ [q]) (requests o) (mirrorWrites o)
       (console o ++ match saved with None => [] | Some e => [FailedToSave e] end ++ [line])
       (S (clockReads o)) (randomReads o)).

(** The Firestore document [updateLocalMirror] writes, if any. *)
Definition mirror_target (collectionKey : string) (d : Json) : option MirrorWrite :=
  if String.eqb collectionKey "scheduledWorkouts" && truthy_opt (property d "id") then
    Some (mkMirrorWrite "scheduledWorkouts" (default JNull (property d "id")) d)
  else if String.eqb collectionKey "calendar" && truthy_opt (property d "eventId") then
    Some (mkMirrorWrite "calendarEvents" (default JNull (property d "eventId")) d)
  else None.

(** The world after [updateLocalMirror]. *)
Definition mirrored (env : Env) (collectionKey : string) (d : Json) (w : World) : World :=
  let o := outside w in
  match mirror_target collectionKey d with
  | None => w
  | Some mwrite =>
      mkWorld (layer w)
        (mkOutside (storage o) (setItemCalls o) (requests o) (mirrorWrites o ++ [mwrite])
           (console o ++ match firestore_set env (length (mirrorWrites o)) with
                         | None => []
                         | Some e => [ErrorUpdatingMirror e]
                         end)
           (clockReads o) (randomReads o))
  end.

(** The world after the mirror step of a successful call. *)
Definition maybe_mirrored (env : Env) (options : Options) (resp : ApiResponse) (w : World)
  : World :=
  match opt_syncTarget options, resp_data resp with
  | Some target, Some d =>
      if negb (String.eqb target EmptyString) && truthy d then mirrored env target d w else w
  | _, _ => w
  end.

(** Result and final world of a call. *)
Definition performed (env : Env) (ep : string) (m : Method) (b : Json) (options : Options)
    (w : World) : OperationResult * World :=
  let opid := operation_id env m ep w in
  let p := default medium (opt_priority options) in
  let w0 := stamped w in
  if negb (isOnline (layer w)) && offlineSupport_of options then
    (mkResult false None None (Some true), pushed env opid ep m b p (QueuedForLater m ep) w0)
  else
    let w1 := requested (request_for m ep b) w0 in
    match api_request env (length (requests (outside w))) (request_for m ep b) with
    | Returns resp =>
        if is_2xx resp then
          (mkResult true (resp_data resp) None None, maybe_mirrored env options resp w1)
        else
          (mkResult false None (Some (error_or (resp_error resp) "Server error")) None,
           if offlineSupport_of options
           then pushed env opid ep m b p (ServerErrorQueued m ep) w1 else w1)
    | Rejects e =>
        (mkResult false None (Some (error_message e)) None,
         if offlineSupport_of options
         then pushed env opid ep m b p (NetworkErrorQueued m ep) w1 else w1)
    end.

(** * Observations *)

(** The order of the comparator, spelled out: a lower priority rank first,
    and within one priority the older timestamp first. *)
Definition ordered_before (a b : PendingOperation) : Prop :=
  priorityOrder (priority a) < priorityOrder (priority b)
  \/ (priority a = priority b /\ timestamp a <= timestamp b).

(** ** Following one operation *)

Definition has_id (opid : string) (op : PendingOperation) : bool := String.eqb (id op) opid.

(** The queued operations that carry the id. *)
Definition with_id (opid : string) (q : list PendingOperation) : list PendingOperation :=
  List.filter (has_id opid) q.

(** The console lines that report the outcome of an attempt on the id: one
    of the three is written each time the loop has called the transport
    for it. *)
Definition is_outcome (opid : string) (line : ConsoleLine) : bool :=
  match line with
  | OperationSucceeded i | OperationFailed i _ | ErrorExecuting i _ => String.eqb i opid
  | _ => false
  end.

Definition outcomes (opid : string) (ls : list ConsoleLine) : list ConsoleLine :=
  List.filter (is_outcome opid) ls.

(** How many attempts on the id the console has recorded. *)
Definition attempts (opid : string) (w : World) : nat :=
  length (outcomes opid (console (outside w))).

Definition reported_success (opid : string) (w : World) : Prop :=
  In (OperationSucceeded opid) (console (outside w)).

(** The transport never answers the request with a 2xx status. *)
Definition never_accepts (env : Env) (r : Request) : Prop :=
  forall k resp, api_request env k r = Returns resp -> is_2xx resp = false.

(** Nothing happened to the queued operations with the id, and nothing was
    written about an attempt on it. *)
Definition quiet (opid : string) (w w' : World) : Prop :=
  with_id opid (queue w') = with_id opid (queue w)
  /\ outcomes opid (console (outside w')) = outcomes opid (console (outside w)).

(** A call that changed nothing but the console and the count of clock
    readings: the fields of the class, the store and the calls received by
    storage, transport and mirror are as before. *)
Definition no_op (w w' : World) : Prop :=
  layer w' = layer w
  /\ storage (outside w') = storage (outside w)
  /\ setItemCalls (outside w') = setItemCalls (outside w)
  /\ requests (outside w') = requests (outside w)
  /\ mirrorWrites (outside w') = mirrorWrites (outside w).

(** The write-through discipline of one call: either the queue is as it
    was and no save was issued, or exactly one save was issued, last, with
    the final queue as its payload; a save that resolves leaves the store
    equal to the queue. *)
Definition write_through (env : Env) (w w' : World) : Prop :=
  (queue w' = queue w
   /\ setItemCalls (outside w') = setItemCalls (outside w)
   /\ storage (outside w') = storage (outside w))
  \/ (setItemCalls (outside w') = setItemCalls (outside w) ++ [queue w']
      /\ storage (outside w') =
           match storage_setItem env (length (setItemCalls (outside w))) with
           | None => Some (queue w')
           | Some _ => storage (outside w)
           end).

(** What can happen to the class from one observation to the next: calls
    of its public methods in any number and order, and changes of
    connectivity.  The only restriction is that no [performOperation] call
    builds the id under watch again. *)
Inductive history (env : Env) (opid : string) : World -> World -> Prop :=
  | history_start w : history env opid w w
  | history_sync w w' :
      history env opid w w' ->
      history env opid w (snd (syncPendingOperations env w'))
  | history_manualSync w w' :
      history env opid w w' ->
      history env opid w (snd (manualSync env w'))
  | history_performOperation w w' ep m b options :
      history env opid w w' ->
      operation_id env m ep w' <> opid ->
      history env opid w (snd (performOperation env ep m b options w'))
  | history_connectivity w w' online :
      history env opid w w' ->
      history env opid w (on_layer (with_isOnline online) w').

(** What is known of a refused operation [op], queued under [opid] in
    [w0], when the class is observed again in [w]: the attempts recorded
    since are all failures, there are at most as many as [op] had retries
    left, and if the operation is still queued its [retryCount] has grown
    by their number and is below the ceiling as soon as one was made. *)
Definition tracked (opid : string) (op : PendingOperation) (w0 w : World) : Prop :=
  exists fails,
    outcomes opid (console (outside w)) = outcomes opid (console (outside w0)) ++ fails
    /\ Forall (fun line => line <> OperationSucceeded opid) fails
    /\ (length fails <= MAX_RETRY_ATTEMPTS - retryCount op)%nat
    /\ (with_id opid (queue w) = []
        \/ exists op',
             with_id opid (queue w) = [op']
             /\ retryCount op' = (retryCount op + length fails)%nat
             /\ request_of op' = request_of op
             /\ (fails <> [] -> (retryCount op' < MAX_RETRY_ATTEMPTS)%nat)).

(** * Scenarios *)

Definition t0 : Z := 1700000000000.

Definition respond_200 : ApiOutcome :=
  Returns (mkResponse 200 (Some (JObj [("id", JNum 7)])) None).
Definition respond_500 : ApiOutcome :=
  Returns (mkResponse 500 None (Some "Internal error")).

(** Every collaborator works; the clock advances one millisecond per reading. *)
Definition env_fine : Env :=
  mkEnv (fun _ _ => respond_200) (fun _ => None) (fun _ => None)
    (fun n => t0 + Z.of_nat n) (fun _ => "k3x9q0z1a").

(** As [env_fine], but AsyncStorage rejects every write. *)
Definition env_store_down : Env :=
  mkEnv (fun _ _ => respond_200) (fun _ => Some (ErrorInstance "database or disk is full"))
    (fun _ => None) (fun n => t0 + Z.of_nat n) (fun _ => "k3x9q0z1a").

(** The server answers 500 to everything; a minute passes between readings
    of the clock. *)
Definition env_refusing : Env :=
  mkEnv (fun _ _ => respond_500) (fun _ => None) (fun _ => None)
    (fun n => t0 + 60000 * Z.of_nat n) (fun _ => "k3x9q0z1a").

(** The transport throws; Firestore rejects. *)
Definition env_throwing : Env :=
  mkEnv (fun _ _ => Rejects (ErrorInstance "Network request failed")) (fun _ => None)
    (fun _ => Some (ErrorInstance "unavailable")) (fun n => t0 + Z.of_nat n)
    (fun _ => "k3x9q0z1a").

Definition offline_world : World := mkWorld (mkLayer false [] false 0) initial_outside.

Definition schedule : string := "/api/workouts/schedule".

Definition online_world : World := mkWorld (mkLayer true [] false 0) initial_outside.

(** The same collaborators with another Firestore. *)
Definition with_firestore (f : nat -> option Thrown) (env : Env) : Env :=
  mkEnv (api_request env) (storage_setItem env) f (date_now env) (math_random env).

(** A queue of one operation waiting to be sent. *)
Definition op_a : PendingOperation :=
  mkOp "POST_/api/workouts/schedule_1699999990000_k3x9q0z1a" schedule POST (JObj [])
    1699999990000 0 medium.

(** Online, idle, one operation queued, last pass started one second
    before the clock's next reading. *)
Definition recently_synced : World :=
  mkWorld (mkLayer true [op_a] false (t0 - 1000)) initial_outside.

(** The clock reads 10999 and then 11000. *)
Definition env_one_ms_apart : Env :=
  mkEnv (fun _ _ => respond_200) (fun _ => None) (fun _ => None)
    (fun n => 10999 + Z.of_nat n) (fun _ => "k3x9q0z1a").

(** Online, idle, one operation queued, last pass started at 6000. *)
Definition synced_at_6000 : World :=
  mkWorld (mkLayer true [op_a] false 6000) initial_outside.

(** Online, idle, one operation queued, never synced. *)
Definition ready_world : World := mkWorld (mkLayer true [op_a] false 0) initial_outside.

(** Three calls made offline, with priorities low, high, medium in that
    order, and then the connection comes back. *)
Definition after_low : World :=
  snd (performOperation env_fine "/api/workouts/1/cancel" DELETE (JObj [])
         (mkOptions (Some low) None None) offline_world).
Definition after_high : World :=
  snd (performOperation env_fine schedule POST (JObj [("workoutId", JNum 7)])
         (mkOptions (Some high) None None) after_low).
Definition after_medium : World :=
  snd (performOperation env_fine "/api/workouts/7" PUT (JObj [("duration", JNum 30)])
         (mkOptions (Some medium) None None) after_high).
Definition back_online : World := on_layer (with_isOnline true) after_medium.

(** An operation retried twice, whose last attempt was 1000 ms before the
    clock of [env_fine] is read next. *)
Definition op_retried_twice : PendingOperation :=
  mkOp "PUT_/api/workouts/7_1699999900000_k3x9q0z1a" "/api/workouts/7" PUT (JObj [])
    (t0 - 1000) 2 medium.

Definition holding_retried : World :=
  mkWorld (mkLayer true [op_retried_twice] false 0) initial_outside.

(** As [env_fine], 3001 ms later. *)
Definition env_later : Env :=
  mkEnv (fun _ _ => respond_200) (fun _ => None) (fun _ => None)
    (fun n => t0 + 3001 + Z.of_nat n) (fun _ => "k3x9q0z1a").

(** An operation that already carries five retries. *)
Definition op_spent : PendingOperation :=
  mkOp "PUT_/api/workouts/7_1699999900000_k3x9q0z1a" "/api/workouts/7" PUT (JObj [])
    (t0 - 1) 5 medium.

Definition holding_spent : World :=
  mkWorld (mkLayer true [op_spent] false 0) initial_outside.

(** As [env_fine], a minute later. *)
Definition env_a_minute_later : Env :=
  mkEnv (fun _ _ => respond_200) (fun _ => None) (fun _ => None)
    (fun n => t0 + 60000 + Z.of_nat n) (fun _ => "k3x9q0z1a").

(** One operation queued, the server refusing everything. *)
Definition pass (w : World) : World := snd (syncPendingOperations env_refusing w).

Definition after_five_passes : World := pass (pass (pass (pass (pass ready_world)))).

(** * The rest of the class, and a caller

    The listener and the initial check of [setupNetworkListeners],
    [loadPendingOperations], the two queries, the exported [reliability]
    object, and [checkHealth] of [hooks/useAppHealth.tsx], which calls
    it. *)

(** The console lines of these functions.  The console of the world keeps
    the lines of the methods embedded above; these are written and not
    kept. *)
Inductive OtherLine : Type :=
  | NetworkRestored
  | NetworkLost
  | InitialNetworkStatus (online : bool)
  | LoadedPending (n : nat)
  | FailedToLoad (e : Thrown).

Definition console_log_unkept (line : OtherLine) : Js unit := ret tt.

(** What NetInfo reports: each of the two signals is [true], [false] or
    [null]. *)
Record NetInfoState : Type := mkNetInfoState {
  isConnected : option bool;
  isInternetReachable : option bool
}.

(** [state.isConnected === true && state.isInternetReachable !== false] *)
Definition reports_online (state : NetInfoState) : bool :=
  match isConnected state with
  | Some true =>
      match isInternetReachable state with
      | Some false => false
      | _ => true
      end
  | _ => false
  end.

Definition is_high (p : Priority) : bool :=
  match p with high => true | _ => false end.

(** What [logger.performHealthCheck()] resolves to, as far as [checkHealth]
    reads it; the logger itself is a collaborator outside this file. *)
Record HealthData : Type := mkHealthData {
  health_status : string;
  connectivityStatus : bool
}.

(** [interface HealthStatus] *)
Record HealthStatus : Type := mkHealthStatus {
  isHealthy : bool;
  health_isConnected : bool;
  hasPendingOperations : bool;
  hasSyncErrors : bool;
  lastCheckTime : option Z;
  appUptime : Z
}.

Section RestOfTheClass.
Variable env : Env.

(** The listener handed to [NetInfo.addEventListener] (lines 42-56).  The
    call of [syncPendingOperations] is not awaited; here it runs to its
    end before the listener goes on. *)
Definition onNetInfoChange (state : NetInfoState) : Js unit :=
  let* prevOnlineState := gets isOnline in
  update (with_isOnline (reports_online state));;
  let* online := gets isOnline in
  (if negb prevOnlineState && online then
     console_log_unkept NetworkRestored;;
     syncPendingOperations env
   else ret tt);;
  let* online := gets isOnline in
  if prevOnlineState && negb online then console_log_unkept NetworkLost
  else ret tt.

(** The callback of the initial [NetInfo.fetch()] (lines 59-62). *)
Definition onInitialNetInfo (state : NetInfoState) : Js unit :=
  update (with_isOnline (reports_online state));;
  let* online := gets isOnline in
  console_log_unkept (InitialNetworkStatus online).

(** [await AsyncStorage.getItem(PENDING_OPERATIONS_KEY)]: rejects, or
    resolves to what the store holds ([null] when nothing is stored). *)
Definition AsyncStorage_getItem (rejects : option Thrown)
  : Js (option (list PendingOperation)) :=
  fun w =>
    match rejects with
    | Some e => (Throw e, w)
    | None => (Normal (storage (outside w)), w)
    end.

(** [private async loadPendingOperations()].  The store holds what the
    class has written, so [JSON.parse] gives back that list. *)
Definition loadPendingOperations (getItem_rejects : option Thrown) : Js unit :=
  try_catch
    (let* storedOperations := AsyncStorage_getItem getItem_rejects in
     match storedOperations with
     | Some ops =>
         update (with_pendingOperations ops);;
         let* n := gets (fun l => length (pendingOperations l)) in
         console_log_unkept (LoadedPending n)
     | None => ret tt
     end)
    (fun e => console_log_unkept (FailedToLoad e)).

(** [getPendingOperationsCount(): number] *)
Definition getPendingOperationsCount : Js nat :=
  gets (fun l => length (pendingOperations l)).

(** [hasHighPriorityPendingOperations(): boolean] *)
Definition hasHighPriorityPendingOperations : Js bool :=
  gets (fun l => existsb (fun op => is_high (priority op)) (pendingOperations l)).

(** [export const reliability = { post, put, delete, sync, getPendingCount,
    hasHighPriorityPending }]; an omitted [options] is [undefined], which
    [performOperation] defaults to [{}]. *)
Definition reliability_post (ep : string) (b : Json) (options : option Options)
  : Js OperationResult :=
  performOperation env ep POST b (default no_options options).
Definition reliability_put (ep : string) (b : Json) (options : option Options)
  : Js OperationResult :=
  performOperation env ep PUT b (default no_options options).
Definition reliability_delete (ep : string) (options : option Options)
  : Js OperationResult :=
  performOperation env ep DELETE (JObj []) (default no_options options).
Definition reliability_sync : Js bool := manualSync env.
Definition reliability_getPendingCount : Js nat := getPendingOperationsCount.
Definition reliability_hasHighPriorityPending : Js bool := hasHighPriorityPendingOperations.

(** [checkHealth] of [useAppHealth] (lines 39-60), given what the logger's
    health check resolved to and [appStartTime.current].  The value handed
    to [setHealthStatus] is returned with the health data. *)
Definition checkHealth (appStartTime : Z) (healthData : HealthData)
  : Js (HealthStatus * HealthData) :=
  let* pendingCount := reliability_getPendingCount in
  let* hasPendingHighPriority := reliability_hasHighPriorityPending in
  let* checked := Date_now env in
  let* now := Date_now env in
  let healthStatus :=
    mkHealthStatus (String.eqb (health_status healthData) "healthy")
      (connectivityStatus healthData) (0 <? pendingCount)%nat
      (String.eqb (health_status healthData) "unhealthy")
      (Some checked) (now - appStartTime) in
  (if connectivityStatus healthData && hasPendingHighPriority then
     reliability_sync;; ret tt
   else ret tt);;
  ret (healthStatus, healthData).

End RestOfTheClass.

(** A new process on the same device: the fields of the class have their
    initial values, the collaborators hold what they held. *)
Definition restarted (w : World) : World := mkWorld initial_layer (outside w).

(** A restart (with a load that succeeds) would bring back exactly the
    queue now in memory. *)
Definition durable (w : World) : Prop :=
  storage (outside w) = Some (queue w)
  \/ (storage (outside w) = None /\ queue w = []).

(** The transport answers every request with a 2xx status. *)
Definition always_accepts (env : Env) : Prop :=
  forall k r, exists resp, api_request env k r = Returns resp /\ is_2xx resp = true.

(** Same priority and same timestamp: the comparator returns 0. *)
Definition same_rank (a b : PendingOperation) : bool :=
  (priorityOrder (priority a) =? priorityOrder (priority b))%Z
  && (timestamp a =? timestamp b)%Z.

(** No underscore in the string. *)
Fixpoint underscore_free (s : string) : bool :=
  match s with
  | EmptyString => true
  | String c rest => negb (Ascii.eqb c "_"%char) && underscore_free rest
  end.

(** The queued operations, the sync bookkeeping and everything outside the
    class are as before; only [isOnline] may differ. *)
Definition only_connectivity_changed (w w' : World) : Prop :=
  queue w' = queue w
  /\ syncInProgress (layer w') = syncInProgress (layer w)
  /\ lastSyncAttempt (layer w') = lastSyncAttempt (layer w)
  /\ outside w' = outside w.

(** Some scenarios for the connectivity events. *)
Definition wifi_back : NetInfoState := mkNetInfoState (Some true) None.
Definition wifi_lost : NetInfoState := mkNetInfoState (Some false) (Some false).

(** Offline and idle, three operations queued (low, high, medium), never
    synced. *)
Definition three_waiting : World := on_layer (with_isOnline false) back_online.

(** The same, but a pass started two seconds before the clock's next
    reading. *)
Definition three_waiting_just_synced : World :=
  on_layer (with_lastSyncAttempt (time_of env_fine three_waiting - 2000)) three_waiting.

(** [o'] is [o] as a pass started at [now] may leave it: untouched, or with
    one more retry and [now] as its timestamp; in both cases the same id,
    endpoint, method, body and priority. *)
Definition same_operation_later (now : Z) (o o' : PendingOperation) : Prop :=
  id o' = id o /\ endpoint o' = endpoint o /\ method o' = method o
  /\ body o' = body o /\ priority o' = priority o
  /\ ((retryCount o' = retryCount o /\ timestamp o' = timestamp o)
      \/ (retryCount o' = S (retryCount o) /\ timestamp o' = now)).

(** Two operations queued in the same millisecond with the same priority. *)
Definition twin_first : PendingOperation :=
  mkOp "PUT_/api/workouts/7_1699999990000_aaaaaaaaa" "/api/workouts/7" PUT
    (JObj [("status", JStr "completed")]) 1699999990000 0 medium.
Definition twin_second : PendingOperation :=
  mkOp "PUT_/api/workouts/8_1699999990000_bbbbbbbbb" "/api/workouts/8" PUT
    (JObj [("status", JStr "missed")]) 1699999990000 0 medium.
Definition twins_waiting : World :=
  mkWorld (mkLayer true [twin_first; twin_second] false 0) initial_outside.

(** The world after [n] more readings of the clock. *)
Definition clock_read (n : nat) (w : World) : World :=
  on_outside (fun o => mkOutside (storage o) (setItemCalls o) (requests o) (mirrorWrites o)
                         (console o) (n + clockReads o) (randomReads o)) w.

(** A high-priority operation is queued. *)
Definition high_pending (w : World) : bool :=
  existsb (fun op => is_high (priority op)) (queue w).

(** The listener run on a series of connectivity events, oldest first. *)
Definition connectivity_events (env : Env) (events : list NetInfoState) (w : World) : World :=
  fold_left (fun w' state => snd (onNetInfoChange env state w')) events w.

(** The three calls of the exported object that take a body or an
    endpoint, with [options] left out. *)
Inductive PlainCall : Type :=
  | plain_post (ep : string) (b : Json)
  | plain_put (ep : string) (b : Json)
  | plain_delete (ep : string).

Definition plain_call (env : Env) (c : PlainCall) : Js OperationResult :=
  match c with
  | plain_post ep b => reliability_post env ep b None
  | plain_put ep b => reliability_put env ep b None
  | plain_delete ep => reliability_delete env ep None
  end.

Definition plain_request (c : PlainCall) : Request :=
  match c with
  | plain_post ep b => mkRequest POST ep (Some b)
  | plain_put ep b => mkRequest PUT ep (Some b)
  | plain_delete ep => mkRequest DELETE ep None
  end.

(** * Proofs *)

(** ** The loop computes its summary *)

Lemma retried_request now op : request_of (retried now op) = request_of op.
Proof. reflexivity. Qed.

Lemma turn_id env now k op : id (after (turn env now k op)) = id op.
Proof.
  unfold turn. destruct (expired op); [reflexivity|].
  destruct (waiting now op); [reflexivity|].
  destruct (api_request env k (request_of op)) as [r|e]; [destruct (is_2xx r)|]; reflexivity.
Qed.

Lemma turn_request env now k op : request_of (after (turn env now k op)) = request_of op.
Proof.
  unfold turn. destruct (expired op); [reflexivity|].
  destruct (waiting now op); [reflexivity|].
  destruct (api_request env k (request_of op)) as [r|e]; [destruct (is_2xx r)|]; reflexivity.
Qed.

Lemma send_request env op :
  send env (method op) (endpoint op) (body op) = api_call env (request_of op).
Proof. unfold send, request_of. destruct (method op); reflexivity. Qed.

Lemma looped_id w : looped (queue w) [] [] w = w.
Proof.
  destruct w as [[on q ip last] [st calls rs mw con cr rr]].
  unfold looped, queue, with_pendingOperations. simpl. rewrite !app_nil_r. reflexivity.
Qed.

#[local] Arguments Nat.leb : simpl never.
Arguments expired : simpl never.
Arguments waiting : simpl never.
Arguments is_2xx : simpl never.
Arguments backoffDelay : simpl never.

Lemma processOperations_cons env now op rest i succ failed :
  processOperations env now (op :: rest) i succ failed =
    if expired op then
      (console_log (ExceededMaxRetry (id op));;
       processOperations env now rest (S i) succ (failed ++ [id op]))%js
    else if waiting now op then
      (console_log (WaitingForBackoff (id op) (backoffDelay op));;
       processOperations env now rest (S i) succ failed)%js
    else
      (let* marks :=
         try_catch
           (console_log (ExecutingOperation (method op) (endpoint op));;
            let* result := send env (method op) (endpoint op) (body op) in
            if is_2xx result then
              console_log (OperationSucceeded (id op));;
              ret (succ ++ [id op], failed)
            else
              console_log (OperationFailed (id op) (resp_error result));;
              retry_later now i;;
              if (MAX_RETRY_ATTEMPTS <=? S (retryCount op))%nat then
                ret (succ, failed ++ [id op])
              else ret (succ, failed))
           (fun e =>
              console_log (ErrorExecuting (id op) e);;
              retry_later now i;;
              if (MAX_RETRY_ATTEMPTS <=? S (retryCount op))%nat then
                ret (succ, failed ++ [id op])
              else ret (succ, failed)) in
       sleep 100;;
       processOperations env now rest (S i) (fst marks) (snd marks))%js.
Proof. reflexivity. Qed.

Lemma alter_at_length {A} (f : A -> A) (pre : list A) (x : A) (rest : list A) :
  alter f (length pre) (pre ++ x :: rest) = pre ++ f x :: rest.
Proof.
  rewrite <- (Nat.add_0_r (length pre)) at 1. rewrite alter_app_r. reflexivity.
Qed.

Ltac summary_eq :=
  unfold looped, ids_where, requests_of, lines_of, with_pendingOperations, on_layer; simpl;
  rewrite ?length_app, ?Nat.add_1_r, ?alter_at_length; simpl;
  rewrite <- ?app_assoc; reflexivity.

(** The loop of the class computes the summary. *)
Lemma processOperations_run env now ops :
  forall pre succ failed w,
    queue w = pre ++ ops ->
    let ts := turns env now (length (requests (outside w))) ops in
    processOperations env now ops (length pre) succ failed w =
      (Normal (succ ++ ids_where succeeded ts, failed ++ ids_where given_up ts),
       looped (pre ++ map after ts) (requests_of ts) (lines_of ts) w).
Proof.
  induction ops as [|op rest IH]; intros pre succ failed w Hq.
  - simpl. unfold ret, ids_where, requests_of, lines_of. simpl. rewrite !app_nil_r.
    rewrite <- (app_nil_r pre), <- Hq. rewrite looped_id. reflexivity.
  - destruct w as [[on q ip last] [st calls rs mw con cr rr]].
    unfold queue in Hq. simpl in Hq. subst q.
    rewrite processOperations_cons. simpl turns. unfold turn.
    assert (Hpre : forall x, length (pre ++ [x]) = S (length pre))
      by (intros; rewrite length_app, Nat.add_1_r; reflexivity).
    assert (Hnext : forall x succ' failed' w',
      queue w' = (pre ++ [x]) ++ rest ->
      processOperations env now rest (S (length pre)) succ' failed' w' = _)
      by (intros x succ' failed' w' Hw'; rewrite <- (Hpre x); apply IH; exact Hw').
    clear IH.
    destruct (expired op) eqn:He.
    + unfold bind at 1. unfold console_log at 1. simpl.
      rewrite (Hnext op) by (unfold queue; simpl; rewrite <- app_assoc; reflexivity).
      summary_eq.
    + destruct (waiting now op) eqn:Hw.
      * unfold bind at 1. unfold console_log at 1. simpl.
        rewrite (Hnext op) by (unfold queue; simpl; rewrite <- app_assoc; reflexivity).
        summary_eq.
      * rewrite send_request.
        unfold bind at 1. unfold try_catch, bind at 1, console_log at 1.
        unfold bind at 1. unfold api_call at 1. simpl.
        destruct (api_request env (length rs) (request_of op)) as [r|e].
        -- destruct (is_2xx r) eqn:H2.
           ++ unfold bind at 1. unfold console_log at 1. unfold ret at 1.
              unfold bind at 1. unfold sleep, ret at 1. simpl.
              rewrite (Hnext op) by (unfold queue; simpl; rewrite <- app_assoc; reflexivity).
              summary_eq.
           ++ unfold bind at 1. unfold console_log at 1.
              unfold bind at 1. unfold retry_later, update at 1.
              unfold on_layer, with_pendingOperations. simpl.
              rewrite alter_at_length.
              destruct (MAX_RETRY_ATTEMPTS <=? S (retryCount op))%nat eqn:Hm;
                unfold ret at 1; unfold bind at 1; unfold sleep, ret at 1; simpl;
                rewrite (Hnext (retried now op))
                  by (unfold queue; simpl; rewrite <- app_assoc; reflexivity);
                summary_eq.
        -- unfold bind at 1. unfold console_log at 1.
           unfold bind at 1. unfold retry_later, update at 1.
           unfold on_layer, with_pendingOperations. simpl.
           rewrite alter_at_length.
           destruct (MAX_RETRY_ATTEMPTS <=? S (retryCount op))%nat eqn:Hm;
             unfold ret at 1; unfold bind at 1; unfold sleep, ret at 1; simpl;
             rewrite (Hnext (retried now op))
               by (unfold queue; simpl; rewrite <- app_assoc; reflexivity);
             summary_eq.
Qed.

(** ** The calls compute their summaries *)

Lemma syncPendingOperations_drains env w :
  lets_through env w = true ->
  syncPendingOperations env w = (Normal tt, drained env w).
Proof.
  destruct w as [[on q ip last] [st calls rs mw con cr rr]].
  unfold lets_through, time_of. simpl. intros H.
  apply andb_prop in H as [H Hrate]. apply andb_prop in H as [Hip Hon].
  apply negb_true_iff in Hip, Hrate. subst.
  unfold syncPendingOperations.
  unfold bind at 1. unfold gets at 1. simpl.
  unfold bind at 1. unfold gets at 1. simpl.
  unfold bind at 1. unfold Date_now at 1. simpl.
  unfold bind at 1. unfold gets at 1. simpl. rewrite Hrate.
  unfold bind, try_finally, try_catch, update, gets, console_log. simpl.
  rewrite (processOperations_run env (date_now env cr) _ [] [] []) by reflexivity.
  simpl. unfold savePendingOperations, try_catch, bind, gets, AsyncStorage_setItem, console_log.
  simpl. unfold drained, survivors, pass_turns, sorted_queue, time_of, queue. simpl.
  destruct (storage_setItem env (length calls)) as [e|]; simpl;
    unfold on_layer, on_outside, with_pendingOperations, with_syncInProgress,
      with_lastSyncAttempt; simpl; rewrite <- ?app_assoc; reflexivity.
Qed.

Lemma syncPendingOperations_guards env w :
  syncPendingOperations env w =
    (Normal tt,
     if syncInProgress (layer w) then turned_away SyncAlreadyInProgressSkipping false w
     else if negb (isOnline (layer w)) then turned_away CannotSyncOffline false w
     else if (time_of env w - lastSyncAttempt (layer w) <? 5000)%Z
          then turned_away SkippingSyncTooSoon true w
     else drained env w).
Proof.
  destruct (syncInProgress (layer w)) eqn:Hip.
  { unfold syncPendingOperations, bind, gets. rewrite Hip. reflexivity. }
  destruct (isOnline (layer w)) eqn:Hon; simpl.
  2:{ unfold syncPendingOperations, bind, gets. rewrite Hip, Hon. reflexivity. }
  destruct (time_of env w - lastSyncAttempt (layer w) <? 5000)%Z eqn:Hrate.
  { unfold syncPendingOperations, bind, gets. rewrite Hip, Hon. simpl.
    unfold time_of in Hrate. unfold Date_now. simpl. rewrite Hrate. reflexivity. }
  apply syncPendingOperations_drains. unfold lets_through. rewrite Hip, Hon, Hrate. reflexivity.
Qed.

Lemma pushPending_run env opid ep m b p line w :
  bind (pushPending env opid ep m b p) (fun _ => console_log line) w =
    (Normal tt, pushed env opid ep m b p line w).
Proof.
  destruct w as [[on q ip last] [st calls rs mw con cr rr]].
  unfold pushPending, savePendingOperations, AsyncStorage_setItem, Date_now, console_log,
    try_catch, bind, gets, update, pushed, queue, on_layer, on_outside. simpl.
  destruct (storage_setItem env (length calls)); simpl; rewrite <- ?app_assoc; reflexivity.
Qed.

Lemma updateLocalMirror_run env key d w :
  updateLocalMirror env key d w = (Normal tt, mirrored env key d w).
Proof.
  destruct w as [[on q ip last] [st calls rs mw con cr rr]].
  unfold updateLocalMirror, mirrored, mirror_target, try_catch.
  destruct (String.eqb key "scheduledWorkouts" && truthy_opt (property d "id")).
  { unfold firestore_doc_set, console_log, on_outside. simpl.
    destruct (firestore_set env (length mw)); simpl; rewrite ?app_nil_r; reflexivity. }
  destruct (String.eqb key "calendar" && truthy_opt (property d "eventId")).
  { unfold firestore_doc_set, console_log, on_outside. simpl.
    destruct (firestore_set env (length mw)); simpl; rewrite ?app_nil_r; reflexivity. }
  reflexivity.
Qed.

Lemma send_run env m ep b w :
  send env m ep b w =
    (match api_request env (length (requests (outside w))) (request_for m ep b) with
     | Returns resp => Normal resp
     | Rejects e => Throw e
     end, requested (request_for m ep b) w).
Proof.
  unfold send, api_post, api_put, api_delete, api_call, request_for, requested.
  destruct m; simpl;
    match goal with |- context [api_request ?v ?k ?r] => destruct (api_request v k r) end;
    reflexivity.
Qed.

Lemma pushPending_then {A} env opid ep m b p line (k : unit -> Js A) w :
  bind (pushPending env opid ep m b p) (fun _ => bind (console_log line) k) w =
    k tt (pushed env opid ep m b p line w).
Proof.
  destruct w as [[on q ip last] [st calls rs mw con cr rr]].
  unfold pushPending, savePendingOperations, AsyncStorage_setItem, Date_now, console_log,
    try_catch, bind, gets, update, pushed, queue, on_layer, on_outside. simpl.
  destruct (storage_setItem env (length calls)); simpl; rewrite <- ?app_assoc; reflexivity.
Qed.

(** The call computes the summary, and never completes abruptly. *)
Lemma performOperation_run env ep m b options w :
  performOperation env ep m b options w =
    (Normal (fst (performed env ep m b options w)), snd (performed env ep m b options w)).
Proof.
  unfold performOperation, performed.
  unfold bind at 1. unfold Date_now at 1.
  unfold bind at 1. unfold Math_random_suffix at 1.
  unfold bind at 1. unfold gets at 1. cbn [layer outside on_outside].
  fold (offlineSupport_of options).
  change (on_outside _ (on_outside _ w)) with (stamped w).
  change (method_name m +:+ _) with (operation_id env m ep w).
  destruct (negb (isOnline (layer w)) && offlineSupport_of options).
  { rewrite pushPending_then. reflexivity. }
  unfold try_catch. unfold bind at 1. rewrite send_run.
  change (requests (outside (stamped w))) with (requests (outside w)).
  destruct (api_request env (length (requests (outside w))) (request_for m ep b)) as [resp|e].
  - destruct (is_2xx resp).
    + unfold maybe_mirrored. unfold bind at 1.
      destruct (opt_syncTarget options) as [target|]; [|reflexivity].
      destruct (resp_data resp) as [d|]; [|reflexivity].
      destruct (negb (String.eqb target EmptyString) && truthy d); [|reflexivity].
      rewrite updateLocalMirror_run. reflexivity.
    + destruct (offlineSupport_of options).
      * unfold bind at 1. rewrite pushPending_run. reflexivity.
      * reflexivity.
  - destruct (offlineSupport_of options).
    + unfold bind at 1. rewrite pushPending_run. reflexivity.
    + reflexivity.
Qed.

(** ** The sort *)

Lemma priorityOrder_inj p q : priorityOrder p = priorityOrder q -> p = q.
Proof. destruct p, q; simpl; intros H; try reflexivity; discriminate H. Qed.

Lemma compareOperations_before a b :
  compareOperations a b <= 0 <-> ordered_before a b.
Proof.
  unfold compareOperations, ordered_before.
  destruct (priorityOrder (priority a) =? priorityOrder (priority b))%Z eqn:E; simpl.
  - apply Z.eqb_eq in E. pose proof (priorityOrder_inj _ _ E). split.
    + intros H'. right. split; [assumption | lia].
    + intros [H' | [_ H']]; lia.
  - apply Z.eqb_neq in E. split.
    + intros H'. left. lia.
    + intros [H' | [H' _]]; [lia | congruence].
Qed.

Lemma ordered_before_total a b : ordered_before a b \/ ordered_before b a.
Proof.
  unfold ordered_before.
  destruct (Z.lt_trichotomy (priorityOrder (priority a)) (priorityOrder (priority b)))
    as [H | [H | H]]; [left; left; exact H | | right; left; exact H].
  apply priorityOrder_inj in H.
  destruct (Z.le_ge_cases (timestamp a) (timestamp b)).
  - left. right. split; assumption.
  - right. right. split; [symmetry; assumption | assumption].
Qed.

Lemma ordered_before_trans a b c :
  ordered_before a b -> ordered_before b c -> ordered_before a c.
Proof.
  unfold ordered_before. intros [H1 | [E1 H1]] [H2 | [E2 H2]].
  - left. lia.
  - left. rewrite <- E2. exact H1.
  - left. rewrite E1. exact H2.
  - right. split; [congruence | lia].
Qed.

Section Sorting.
Context {A : Type} (cmp : A -> A -> Z).

Lemma sort_insert_Permutation x l : Permutation (sort_insert cmp x l) (x :: l).
Proof.
  induction l as [|y l IH]; simpl; [reflexivity|].
  destruct (cmp x y <=? 0)%Z; [reflexivity|].
  rewrite IH. apply perm_swap.
Qed.

Lemma Array_sort_Permutation l : Permutation (Array_sort cmp l) l.
Proof.
  induction l as [|x l IH]; simpl; [reflexivity|].
  rewrite sort_insert_Permutation. apply perm_skip. exact IH.
Qed.

Variable R : A -> A -> Prop.
Hypothesis cmp_R : forall a b, cmp a b <= 0 <-> R a b.
Hypothesis R_total : forall a b, R a b \/ R b a.
Hypothesis R_trans : forall a b c, R a b -> R b c -> R a c.

Lemma sort_insert_sorted x l :
  StronglySorted R l -> StronglySorted R (sort_insert cmp x l).
Proof.
  induction l as [|y l IH]; simpl; intros Hs.
  - constructor; [constructor | constructor].
  - inversion Hs as [|? ? Hl Hy]; subst.
    destruct (cmp x y <=? 0)%Z eqn:E.
    + apply Z.leb_le, cmp_R in E. constructor; [exact Hs|].
      constructor; [exact E|].
      eapply Forall_impl; [exact Hy|]. intros z Hz. simpl. eapply R_trans; eassumption.
    + apply Z.leb_gt in E.
      assert (Hyx : R y x).
      { destruct (R_total x y) as [H|H]; [apply cmp_R in H; lia | exact H]. }
      constructor; [apply IH; exact Hl|].
      rewrite sort_insert_Permutation. constructor; assumption.
Qed.

Lemma Array_sort_sorted l : StronglySorted R (Array_sort cmp l).
Proof.
  induction l as [|x l IH]; simpl; [constructor | apply sort_insert_sorted; exact IH].
Qed.
End Sorting.

Lemma sorted_queue_sorted w : StronglySorted ordered_before (sorted_queue w).
Proof.
  apply Array_sort_sorted.
  - exact compareOperations_before.
  - exact ordered_before_total.
  - exact ordered_before_trans.
Qed.

Lemma StronglySorted_filter {A} (R : A -> A -> Prop) (f : A -> bool) l :
  StronglySorted R l -> StronglySorted R (List.filter f l).
Proof.
  induction 1 as [|x l Hs IH Hx]; simpl; [constructor|].
  destruct (f x); [|exact IH].
  constructor; [exact IH|].
  apply List.Forall_forall. intros y Hy. apply List.filter_In in Hy as [Hy _].
  rewrite List.Forall_forall in Hx. apply Hx. exact Hy.
Qed.

(** ** Following one operation through a pass *)

Lemma turn_sent env now k op : sent (turn env now k op) = due now op.
Proof.
  unfold turn, due. destruct (expired op); [reflexivity|].
  destruct (waiting now op); [reflexivity|].
  destruct (api_request env k (request_of op)) as [r|e]; [destruct (is_2xx r)|]; reflexivity.
Qed.

Lemma requests_of_turns env now ops : forall k,
  requests_of (turns env now k ops) = map request_of (List.filter (due now) ops).
Proof.
  induction ops as [|op rest IH]; intros k; [reflexivity|].
  unfold requests_of in *. simpl.
  rewrite turn_sent. destruct (due now op); simpl.
  - rewrite turn_request, IH. reflexivity.
  - apply IH.
Qed.

Lemma turns_length env now ops : forall k, length (turns env now k ops) = length ops.
Proof. induction ops as [|op rest IH]; intros k; simpl; [reflexivity | rewrite IH; reflexivity]. Qed.

Lemma filter_Permutation_bool {A} (f : A -> bool) l l' :
  Permutation l l' -> Permutation (List.filter f l) (List.filter f l').
Proof.
  induction 1 as [|x l l' _ IH|x y l|l l' l'' _ IH1 _ IH2]; simpl.
  - reflexivity.
  - destruct (f x); [apply perm_skip|]; exact IH.
  - destruct (f x), (f y); try reflexivity. apply perm_swap.
  - etransitivity; eassumption.
Qed.

Lemma with_id_sorted opid op q :
  with_id opid q = [op] -> with_id opid (Array_sort compareOperations q) = [op].
Proof.
  intros H. apply Permutation_singleton_r. rewrite <- H.
  apply filter_Permutation_bool, Array_sort_Permutation.
Qed.

Lemma with_id_sorted_nil opid q :
  with_id opid q = [] -> with_id opid (Array_sort compareOperations q) = [].
Proof.
  intros H. apply Permutation_nil_r. rewrite <- H.
  apply filter_Permutation_bool, Array_sort_Permutation.
Qed.

Lemma includes_app l1 l2 x : includes (l1 ++ l2) x = includes l1 x || includes l2 x.
Proof. unfold includes. apply existsb_app. Qed.

Lemma has_id_turn env now k opid op :
  has_id opid (after (turn env now k op)) = has_id opid op.
Proof. unfold has_id. rewrite turn_id. reflexivity. Qed.

Lemma turn_lines_other env now k opid op :
  has_id opid op = false -> outcomes opid (lines (turn env now k op)) = [].
Proof.
  unfold has_id. intros H. unfold turn.
  destruct (expired op); [reflexivity|]. destruct (waiting now op); [reflexivity|].
  destruct (api_request env k (request_of op)) as [r|e]; [destruct (is_2xx r)|];
    simpl; rewrite H; reflexivity.
Qed.

Lemma ids_where_cons p t ts :
  ids_where p (t :: ts) = (if p t then [id (after t)] else []) ++ ids_where p ts.
Proof. unfold ids_where. simpl. destruct (p t); reflexivity. Qed.

Lemma includes_ids_where_cons p t ts opid :
  includes (ids_where p (t :: ts)) opid =
    (p t && has_id opid (after t)) || includes (ids_where p ts) opid.
Proof.
  rewrite ids_where_cons, includes_app. destruct (p t); simpl; [|reflexivity].
  unfold includes, has_id. simpl. rewrite String.eqb_sym, orb_false_r. reflexivity.
Qed.

Lemma lines_of_cons t ts : lines_of (t :: ts) = lines t ++ lines_of ts.
Proof. reflexivity. Qed.

Lemma outcomes_app opid l1 l2 : outcomes opid (l1 ++ l2) = outcomes opid l1 ++ outcomes opid l2.
Proof. unfold outcomes. apply List.filter_app. Qed.

(** A pass neither touches nor writes about an id that is not queued. *)
Lemma turns_without_id env now opid ops : forall k,
  with_id opid ops = [] ->
  let ts := turns env now k ops in
  with_id opid (map after ts) = []
  /\ (forall p, includes (ids_where p ts) opid = false)
  /\ outcomes opid (lines_of ts) = [].
Proof.
  induction ops as [|op0 rest IH]; intros k H; simpl.
  - repeat split; reflexivity.
  - unfold with_id in H. simpl in H.
    destruct (has_id opid op0) eqn:E; [discriminate H|].
    destruct (IH (if sent (turn env now k op0) then S k else k) H) as (H1 & H2 & H3).
    repeat split.
    + unfold with_id. simpl. rewrite has_id_turn, E. exact H1.
    + intros p. rewrite includes_ids_where_cons, has_id_turn, E, andb_false_r. apply H2.
    + rewrite lines_of_cons, outcomes_app, H3, (turn_lines_other _ _ _ _ _ E). reflexivity.
Qed.

(** What a pass does with the one element that carries [opid] is what its
    own iteration does; the other iterations neither touch it nor write
    about it. *)
Lemma turns_with_id env now opid op ops : forall k,
  with_id opid ops = [op] ->
  exists k',
    let t := turn env now k' op in
    let ts := turns env now k ops in
    with_id opid (map after ts) = [after t]
    /\ includes (ids_where succeeded ts) opid = succeeded t
    /\ includes (ids_where given_up ts) opid = given_up t
    /\ outcomes opid (lines_of ts) = outcomes opid (lines t).
Proof.
  induction ops as [|op0 rest IH]; intros k H; [discriminate H|].
  unfold with_id in H. simpl in H. destruct (has_id opid op0) eqn:E.
  - injection H as -> Hrest. exists k. simpl.
    destruct (turns_without_id env now opid rest
                (if sent (turn env now k op) then S k else k) Hrest) as (H1 & H2 & H3).
    repeat split.
    + unfold with_id. simpl. rewrite has_id_turn, E. f_equal. exact H1.
    + rewrite includes_ids_where_cons, has_id_turn, E, andb_true_r, H2, orb_false_r.
      reflexivity.
    + rewrite includes_ids_where_cons, has_id_turn, E, andb_true_r, H2, orb_false_r.
      reflexivity.
    + rewrite lines_of_cons, outcomes_app, H3, app_nil_r. reflexivity.
  - destruct (IH (if sent (turn env now k op0) then S k else k) H) as (k' & H1 & H2 & H3 & H4).
    exists k'. simpl. repeat split.
    + unfold with_id. simpl. rewrite has_id_turn, E. exact H1.
    + rewrite includes_ids_where_cons, has_id_turn, E, andb_false_r. exact H2.
    + rewrite includes_ids_where_cons, has_id_turn, E, andb_false_r. exact H3.
    + rewrite lines_of_cons, outcomes_app, (turn_lines_other _ _ _ _ _ E). exact H4.
Qed.

Lemma has_id_eq opid op : has_id opid op = true -> id op = opid.
Proof. unfold has_id. apply String.eqb_eq. Qed.

Lemma with_id_still_pending opid S F l :
  with_id opid (List.filter (still_pending S F) l) =
    if includes S opid || includes F opid then [] else with_id opid l.
Proof.
  induction l as [|x l IH]; simpl.
  - destruct (includes S opid || includes F opid); reflexivity.
  - unfold with_id in *. simpl. destruct (has_id opid x) eqn:E.
    + unfold still_pending at 1. rewrite (has_id_eq _ _ E).
      destruct (includes S opid), (includes F opid); simpl in *; try exact IH.
      rewrite E, IH. reflexivity.
    + destruct (still_pending S F x); simpl; [rewrite E|]; exact IH.
Qed.

Lemma outcomes_drained env w opid :
  outcomes opid (console (outside (drained env w))) =
    outcomes opid (console (outside w)) ++ outcomes opid (lines_of (pass_turns env w)).
Proof.
  unfold drained. simpl. rewrite !outcomes_app. simpl.
  destruct (storage_setItem env (length (setItemCalls (outside w)))); simpl;
    rewrite outcomes_app; simpl; rewrite app_nil_r; reflexivity.
Qed.

(** One pass and the one queued operation that carries [opid]. *)
Lemma drained_with_id env w opid op :
  with_id opid (queue w) = [op] ->
  exists k,
    let t := turn env (time_of env w) k op in
    with_id opid (queue (drained env w)) =
      (if succeeded t || given_up t then [] else [after t])
    /\ outcomes opid (console (outside (drained env w))) =
         outcomes opid (console (outside w)) ++ outcomes opid (lines t).
Proof.
  intros H. apply with_id_sorted in H.
  destruct (turns_with_id env (time_of env w) opid op _ (length (requests (outside w))) H)
    as (k & H1 & H2 & H3 & H4).
  exists k. cbv zeta. split.
  - unfold drained, queue, survivors, pass_turns, sorted_queue. simpl.
    rewrite with_id_still_pending, H2, H3, H1. reflexivity.
  - rewrite outcomes_drained. unfold pass_turns, sorted_queue. rewrite H4. reflexivity.
Qed.

Lemma drained_without_id env w opid :
  with_id opid (queue w) = [] ->
  with_id opid (queue (drained env w)) = []
  /\ outcomes opid (console (outside (drained env w))) = outcomes opid (console (outside w)).
Proof.
  intros H. apply with_id_sorted_nil in H.
  destruct (turns_without_id env (time_of env w) opid _ (length (requests (outside w))) H)
    as (H1 & H2 & H3).
  split.
  - unfold drained, queue, survivors, pass_turns, sorted_queue. simpl.
    rewrite with_id_still_pending, H1. destruct (_ || _); reflexivity.
  - rewrite outcomes_drained. unfold pass_turns, sorted_queue. rewrite H3, app_nil_r.
    reflexivity.
Qed.

Lemma quiet_turned_away opid line b w :
  is_outcome opid line = false -> quiet opid w (turned_away line b w).
Proof.
  intros H. split; [reflexivity|].
  unfold turned_away. simpl. rewrite outcomes_app. simpl. rewrite H. apply app_nil_r.
Qed.

Lemma with_id_app opid l1 l2 : with_id opid (l1 ++ l2) = with_id opid l1 ++ with_id opid l2.
Proof. unfold with_id. apply List.filter_app. Qed.

Lemma manualSync_run env w :
  manualSync env w =
    (Normal (isOnline (layer w) && negb (syncInProgress (layer w))),
     if negb (isOnline (layer w)) then turned_away CannotSyncOffline false w
     else if syncInProgress (layer w) then turned_away SyncAlreadyInProgress false w
     else snd (syncPendingOperations env w)).
Proof.
  unfold manualSync, bind, gets.
  destruct (isOnline (layer w)); simpl; [|reflexivity].
  destruct (syncInProgress (layer w)); simpl; [reflexivity|].
  rewrite syncPendingOperations_guards. reflexivity.
Qed.

Lemma turned_away_no_op line b w : no_op w (turned_away line b w).
Proof. repeat split. Qed.

Lemma write_through_pushed env opid ep m b p line w w0 :
  queue w0 = queue w ->
  setItemCalls (outside w0) = setItemCalls (outside w) ->
  storage (outside w0) = storage (outside w) ->
  write_through env w (pushed env opid ep m b p line w0).
Proof.
  intros Hq Hc Hs. right. unfold pushed, queue. simpl. rewrite Hc, Hs. split; reflexivity.
Qed.

Lemma write_through_same env w w' :
  queue w' = queue w ->
  setItemCalls (outside w') = setItemCalls (outside w) ->
  storage (outside w') = storage (outside w) ->
  write_through env w w'.
Proof. intros. left. repeat split; assumption. Qed.

Lemma mirrored_fields env key d w :
  layer (mirrored env key d w) = layer w
  /\ storage (outside (mirrored env key d w)) = storage (outside w)
  /\ setItemCalls (outside (mirrored env key d w)) = setItemCalls (outside w)
  /\ requests (outside (mirrored env key d w)) = requests (outside w).
Proof. unfold mirrored. destruct (mirror_target key d); repeat split. Qed.

Lemma maybe_mirrored_fields env options resp w :
  layer (maybe_mirrored env options resp w) = layer w
  /\ storage (outside (maybe_mirrored env options resp w)) = storage (outside w)
  /\ setItemCalls (outside (maybe_mirrored env options resp w)) = setItemCalls (outside w)
  /\ requests (outside (maybe_mirrored env options resp w)) = requests (outside w).
Proof.
  unfold maybe_mirrored.
  destruct (opt_syncTarget options) as [target|]; [|repeat split].
  destruct (resp_data resp) as [d|]; [|repeat split].
  destruct (negb (String.eqb target EmptyString) && truthy d); [apply mirrored_fields | repeat split].
Qed.

Lemma performed_write_through env ep m b options w :
  write_through env w (snd (performed env ep m b options w)).
Proof.
  unfold performed.
  destruct (negb (isOnline (layer w)) && offlineSupport_of options); simpl.
  { apply write_through_pushed; reflexivity. }
  destruct (api_request env (length (requests (outside w))) (request_for m ep b)) as [resp|e].
  - destruct (is_2xx resp); simpl.
    + destruct (maybe_mirrored_fields env options resp
                  (requested (request_for m ep b) (stamped w))) as (Hl & Hs & Hc & _).
      apply write_through_same; [unfold queue; rewrite Hl | rewrite Hc | rewrite Hs];
        reflexivity.
    + destruct (offlineSupport_of options);
        [apply write_through_pushed | apply write_through_same]; reflexivity.
  - simpl. destruct (offlineSupport_of options);
      [apply write_through_pushed | apply write_through_same]; reflexivity.
Qed.

Lemma sync_write_through env w :
  write_through env w (snd (syncPendingOperations env w)).
Proof.
  rewrite syncPendingOperations_guards. simpl.
  destruct (syncInProgress (layer w)); [apply write_through_same; reflexivity|].
  destruct (negb (isOnline (layer w))); [apply write_through_same; reflexivity|].
  destruct (time_of env w - lastSyncAttempt (layer w) <? 5000)%Z;
    [apply write_through_same; reflexivity|].
  right. unfold drained, queue. simpl. split; reflexivity.
Qed.

Lemma quiet_same opid w w' :
  queue w' = queue w -> console (outside w') = console (outside w) -> quiet opid w w'.
Proof. intros Hq Hc. unfold quiet. rewrite Hq, Hc. split; reflexivity. Qed.

Lemma quiet_trans opid w1 w2 w3 : quiet opid w1 w2 -> quiet opid w2 w3 -> quiet opid w1 w3.
Proof. intros [H1 H2] [H3 H4]. split; congruence. Qed.

Lemma quiet_pushed env opid opid' ep m b p line w :
  opid' <> opid ->
  is_outcome opid line = false ->
  quiet opid w (pushed env opid' ep m b p line w).
Proof.
  intros Hid Hline. unfold quiet, pushed, queue. simpl. split.
  - rewrite with_id_app. unfold with_id at 2. simpl. unfold has_id. simpl.
    destruct (String.eqb_spec opid' opid); [contradiction | apply app_nil_r].
  - rewrite outcomes_app.
    destruct (storage_setItem env (length (setItemCalls (outside w)))); simpl;
      rewrite Hline; apply app_nil_r.
Qed.

Lemma quiet_mirrored env opid key d w : quiet opid w (mirrored env key d w).
Proof.
  unfold mirrored. destruct (mirror_target key d); [|apply quiet_same; reflexivity].
  unfold quiet, queue. simpl. split; [reflexivity|].
  rewrite outcomes_app.
  destruct (firestore_set env (length (mirrorWrites (outside w)))); simpl; apply app_nil_r.
Qed.

Lemma quiet_maybe_mirrored env opid options resp w :
  quiet opid w (maybe_mirrored env options resp w).
Proof.
  unfold maybe_mirrored.
  destruct (opt_syncTarget options) as [target|]; [|apply quiet_same; reflexivity].
  destruct (resp_data resp) as [d|]; [|apply quiet_same; reflexivity].
  destruct (negb (String.eqb target EmptyString) && truthy d);
    [apply quiet_mirrored | apply quiet_same; reflexivity].
Qed.

(** A [performOperation] call that builds another id leaves the operation
    alone. *)
Lemma performOperation_quiet env ep m b options w opid :
  operation_id env m ep w <> opid ->
  quiet opid w (snd (performOperation env ep m b options w)).
Proof.
  intros Hid. rewrite performOperation_run. simpl. unfold performed.
  assert (Hw0 : quiet opid w (stamped w)) by (apply quiet_same; reflexivity).
  assert (Hw1 : quiet opid w (requested (request_for m ep b) (stamped w)))
    by (apply quiet_same; reflexivity).
  destruct (negb (isOnline (layer w)) && offlineSupport_of options); simpl.
  { eapply quiet_trans; [exact Hw0 | apply quiet_pushed; [exact Hid | reflexivity]]. }
  destruct (api_request env (length (requests (outside w))) (request_for m ep b)) as [resp|e].
  - destruct (is_2xx resp); simpl.
    + eapply quiet_trans; [exact Hw1 | apply quiet_maybe_mirrored].
    + destruct (offlineSupport_of options); [|exact Hw1].
      eapply quiet_trans; [exact Hw1 | apply quiet_pushed; [exact Hid | reflexivity]].
  - simpl. destruct (offlineSupport_of options); [|exact Hw1].
    eapply quiet_trans; [exact Hw1 | apply quiet_pushed; [exact Hid | reflexivity]].
Qed.

(** ** An operation the transport always refuses *)

(** What the iteration of a refused operation leaves behind. *)
Lemma turn_refused env now k op :
  never_accepts env (request_of op) ->
  let t := turn env now k op in
  succeeded t = false
  /\ ((sent t = false /\ after t = op /\ outcomes (id op) (lines t) = []
       /\ given_up t = expired op)
      \/ (sent t = true /\ expired op = false /\ after t = retried now op
          /\ given_up t = (MAX_RETRY_ATTEMPTS <=? S (retryCount op))%nat
          /\ exists line, outcomes (id op) (lines t) = [line]
                          /\ line <> OperationSucceeded (id op))).
Proof.
  intros Hnever. unfold turn.
  destruct (expired op) eqn:He.
  { split; [reflexivity|]. left. repeat split. }
  destruct (waiting now op).
  { split; [reflexivity|]. left. repeat split. }
  destruct (api_request env k (request_of op)) as [r|e] eqn:Hr.
  - rewrite (Hnever _ _ Hr). split; [reflexivity|]. right. repeat split.
    exists (OperationFailed (id op) (resp_error r)). simpl.
    unfold outcomes. simpl. rewrite String.eqb_refl. split; [reflexivity | discriminate].
  - split; [reflexivity|]. right. repeat split.
    exists (ErrorExecuting (id op) e). simpl.
    unfold outcomes. simpl. rewrite String.eqb_refl. split; [reflexivity | discriminate].
Qed.

Lemma with_id_singleton_id opid op q : with_id opid q = [op] -> id op = opid.
Proof.
  intros H. apply has_id_eq.
  assert (Hin : In op (with_id opid q)) by (rewrite H; left; reflexivity).
  apply List.filter_In in Hin. apply Hin.
Qed.

Lemma tracked_quiet opid op w0 w w' :
  tracked opid op w0 w -> quiet opid w w' -> tracked opid op w0 w'.
Proof.
  intros (fails & H1 & H2 & H3 & H4) [Hq Hc]. exists fails.
  rewrite Hq, Hc. repeat split; assumption.
Qed.

Lemma tracked_drained env opid op w0 w :
  never_accepts env (request_of op) ->
  tracked opid op w0 w -> tracked opid op w0 (drained env w).
Proof.
  intros Hnever (fails & H1 & H2 & H3 & [Hgone | (op' & Hq & Hrc & Hreq & Hlt)]).
  - destruct (drained_without_id env w opid Hgone) as [Hq' Hc'].
    exists fails. rewrite Hc'. repeat split; try assumption. left. exact Hq'.
  - pose proof (with_id_singleton_id _ _ _ Hq) as Hid.
    destruct (drained_with_id env w opid op' Hq) as (k & Hq' & Hc').
    cbv zeta in Hq', Hc'.
    assert (Hnever' : never_accepts env (request_of op')) by (rewrite Hreq; exact Hnever).
    destruct (turn_refused env (time_of env w) k op' Hnever') as (Hs & Hcase).
    rewrite Hid in Hcase. rewrite Hs in Hq'. simpl in Hq'.
    destruct Hcase as [(_ & Hafter & Hout & Hgu) | (_ & He & Hafter & Hgu & line & Hout & Hline)].
    + exists fails. rewrite Hc', Hout, app_nil_r. repeat split; try assumption.
      rewrite Hgu, Hafter in Hq'. destruct (expired op'); [left; exact Hq'|].
      right. exists op'. repeat split; assumption.
    + unfold expired in He. apply Nat.leb_gt in He.
      exists (fails ++ [line]). rewrite Hc', Hout, H1, <- app_assoc.
      rewrite length_app. simpl. repeat split.
      * apply Forall_app. split; [exact H2 | constructor; [exact Hline | constructor]].
      * lia.
      * rewrite Hgu, Hafter in Hq'.
        destruct (MAX_RETRY_ATTEMPTS <=? S (retryCount op'))%nat eqn:Hm; [left; exact Hq'|].
        apply Nat.leb_gt in Hm.
        right. exists (retried (time_of env w) op'). repeat split.
        -- exact Hq'.
        -- simpl. lia.
        -- rewrite retried_request. exact Hreq.
        -- intros _. simpl. exact Hm.
Qed.

Lemma tracked_sync env opid op w0 w :
  never_accepts env (request_of op) ->
  tracked opid op w0 w -> tracked opid op w0 (snd (syncPendingOperations env w)).
Proof.
  intros Hnever Ht. rewrite syncPendingOperations_guards. simpl.
  destruct (syncInProgress (layer w));
    [eapply tracked_quiet; [exact Ht | apply quiet_turned_away; reflexivity]|].
  destruct (negb (isOnline (layer w)));
    [eapply tracked_quiet; [exact Ht | apply quiet_turned_away; reflexivity]|].
  destruct (time_of env w - lastSyncAttempt (layer w) <? 5000)%Z;
    [eapply tracked_quiet; [exact Ht | apply quiet_turned_away; reflexivity]|].
  apply tracked_drained; assumption.
Qed.

Lemma tracked_manualSync env opid op w0 w :
  never_accepts env (request_of op) ->
  tracked opid op w0 w -> tracked opid op w0 (snd (manualSync env w)).
Proof.
  intros Hnever Ht. rewrite manualSync_run. simpl.
  destruct (negb (isOnline (layer w)));
    [eapply tracked_quiet; [exact Ht | apply quiet_turned_away; reflexivity]|].
  destruct (syncInProgress (layer w));
    [eapply tracked_quiet; [exact Ht | apply quiet_turned_away; reflexivity]|].
  apply tracked_sync; assumption.
Qed.

Lemma tracked_history env opid op w0 w :
  with_id opid (queue w0) = [op] ->
  never_accepts env (request_of op) ->
  history env opid w0 w ->
  tracked opid op w0 w.
Proof.
  intros Hq Hnever Hh. induction Hh as [w | w w' _ IH | w w' _ IH | w w' ep m b o _ IH Hid | w w' on _ IH].
  - exists []. rewrite app_nil_r. repeat split; [constructor | simpl; lia |].
    right. exists op. repeat split; [exact Hq | simpl; lia | intros H; contradiction].
  - apply tracked_sync; auto.
  - apply tracked_manualSync; auto.
  - eapply tracked_quiet; [apply IH; exact Hq | apply performOperation_quiet; exact Hid].
  - eapply tracked_quiet; [apply IH; exact Hq | apply quiet_same; reflexivity].
Qed.

(** Once no operation is queued under the id, none ever is again. *)
Lemma gone_for_good env opid w1 w2 :
  history env opid w1 w2 ->
  with_id opid (queue w1) = [] -> with_id opid (queue w2) = [].
Proof.
  intros Hh Hgone.
  induction Hh as [w | w w' _ IH | w w' _ IH | w w' ep m b o _ IH Hid | w w' on _ IH].
  - exact Hgone.
  - specialize (IH Hgone). rewrite syncPendingOperations_guards. simpl.
    destruct (syncInProgress (layer w')); [exact IH|].
    destruct (negb (isOnline (layer w'))); [exact IH|].
    destruct (time_of env w' - lastSyncAttempt (layer w') <? 5000)%Z; [exact IH|].
    apply drained_without_id. exact IH.
  - specialize (IH Hgone). rewrite manualSync_run. simpl.
    destruct (negb (isOnline (layer w'))); [exact IH|].
    destruct (syncInProgress (layer w')); [exact IH|].
    rewrite syncPendingOperations_guards. simpl.
    destruct (syncInProgress (layer w')); [exact IH|].
    destruct (negb (isOnline (layer w'))); [exact IH|].
    destruct (time_of env w' - lastSyncAttempt (layer w') <? 5000)%Z; [exact IH|].
    apply drained_without_id. exact IH.
  - destruct (performOperation_quiet env ep m b o w' opid Hid) as [Hq' _].
    rewrite Hq'. apply IH. exact Hgone.
  - apply IH. exact Hgone.
Qed.

(** * The claims *)

(** ** C1 *)

(** C1, as stated, fails: offline, with [offlineSupport] defaulted, a call
    whose AsyncStorage write is rejected still returns
    [{success: false, queued: true}] and has queued the operation in
    memory, but the persisted store is not equal to the in-memory queue
    (nothing was stored). *)
Lemma C1_store_lags_when_write_fails :
  let r := performOperation env_store_down schedule POST (JObj []) no_options offline_world in
  isOnline (layer offline_world) = false
  /\ offlineSupport_of no_options = true
  /\ fst r = Normal (mkResult false None None (Some true))
  /\ length (queue (snd r)) = 1%nat
  /\ storage (outside (snd r)) <> Some (queue (snd r)).
Proof. vm_compute. repeat split; discriminate. Qed.

(** C1, amended: a call made while offline with [offlineSupport] true or
    defaulted sends nothing to the transport, appends exactly one new
    [PendingOperation] with [retryCount = 0] (carrying the call's endpoint,
    method, body and priority) to the queue, issues one save whose payload
    is the queue so extended, and returns [{success: false, queued: true}];
    when that write resolves the persisted store equals the in-memory
    queue, and when it is rejected the store keeps what it held. *)
Theorem C1_offline_call_queues env ep m b options w :
  isOnline (layer w) = false ->
  offlineSupport_of options = true ->
  let r := performOperation env ep m b options w in
  exists op,
    fst r = Normal (mkResult false None None (Some true))
    /\ requests (outside (snd r)) = requests (outside w)
    /\ queue (snd r) = queue w ++ [op]
    /\ retryCount op = 0%nat
    /\ (endpoint op, method op, body op) = (ep, m, b)
    /\ priority op = default medium (opt_priority options)
    /\ setItemCalls (outside (snd r)) = setItemCalls (outside w) ++ [queue (snd r)]
    /\ (storage_setItem env (length (setItemCalls (outside w))) = None ->
        storage (outside (snd r)) = Some (queue (snd r)))
    /\ (forall e, storage_setItem env (length (setItemCalls (outside w))) = Some e ->
        storage (outside (snd r)) = storage (outside w)).
Proof.
  intros Hoff Hos r. subst r. rewrite performOperation_run. unfold performed.
  rewrite Hoff, Hos. simpl.
  exists (fresh_operation env ep m b options w).
  unfold pushed, queue. simpl. repeat split.
  - intros ->. reflexivity.
  - intros e ->. reflexivity.
Qed.

Lemma C1_offline_call_queues_witness :
  isOnline (layer offline_world) = false
  /\ offlineSupport_of no_options = true
  /\ exists op,
       fst (performOperation env_fine schedule POST (JObj []) no_options offline_world)
         = Normal (mkResult false None None (Some true))
       /\ queue (snd (performOperation env_fine schedule POST (JObj []) no_options offline_world))
          = queue offline_world ++ [op]
       /\ retryCount op = 0%nat.
Proof.
  split; [reflexivity|]. split; [reflexivity|].
  destruct (C1_offline_call_queues env_fine schedule POST (JObj []) no_options offline_world
              eq_refl eq_refl) as (op & H1 & _ & H3 & H4 & _).
  exists op. repeat split; assumption.
Defined.

(** ** C5 *)

Lemma is_2xx_range r : is_2xx r = true <-> 200 <= status r < 300.
Proof. unfold is_2xx. rewrite andb_true_iff, Z.leb_le, Z.ltb_lt. reflexivity. Qed.

(** C5: a call made while online whose one transport attempt returns a
    status outside [200,300) or throws returns [success: false] with an
    [error] string and no [queued] flag (and no [data]).  With
    [offlineSupport] true or defaulted it has appended one fresh
    [PendingOperation] with [retryCount = 0] and issued a save of the
    extended queue (the store then holds that queue if the write
    resolves); with [offlineSupport] false the queue and the store are as
    before and no save was issued. *)
Theorem C5_failed_online_call env ep m b options w :
  isOnline (layer w) = true ->
  (forall resp,
     api_request env (length (requests (outside w))) (request_for m ep b) = Returns resp ->
     status resp < 200 \/ 300 <= status resp) ->
  let r := performOperation env ep m b options w in
  (exists msg, fst r = Normal (mkResult false None (Some msg) None))
  /\ requests (outside (snd r)) = requests (outside w) ++ [request_for m ep b]
  /\ (offlineSupport_of options = true ->
      exists op,
        queue (snd r) = queue w ++ [op]
        /\ retryCount op = 0%nat
        /\ (endpoint op, method op, body op) = (ep, m, b)
        /\ priority op = default medium (opt_priority options)
        /\ setItemCalls (outside (snd r)) = setItemCalls (outside w) ++ [queue (snd r)]
        /\ (storage_setItem env (length (setItemCalls (outside w))) = None ->
            storage (outside (snd r)) = Some (queue (snd r))))
  /\ (offlineSupport_of options = false ->
      queue (snd r) = queue w
      /\ setItemCalls (outside (snd r)) = setItemCalls (outside w)
      /\ storage (outside (snd r)) = storage (outside w)).
Proof.
  intros Hon Hfail r. subst r. rewrite performOperation_run. unfold performed.
  rewrite Hon. simpl.
  destruct (api_request env (length (requests (outside w))) (request_for m ep b))
    as [resp|e] eqn:Hout.
  - assert (H2 : is_2xx resp = false).
    { destruct (is_2xx resp) eqn:E; [|reflexivity].
      apply is_2xx_range in E. destruct (Hfail resp eq_refl); lia. }
    rewrite H2. simpl. split; [eexists; reflexivity|].
    destruct (offlineSupport_of options); simpl.
    + split; [reflexivity|]. split; [|intros H; discriminate H].
      intros _. exists (fresh_operation env ep m b options w).
      unfold pushed, queue. simpl. repeat split. intros ->. reflexivity.
    + split; [reflexivity|]. split; [intros H; discriminate H|]. intros _. repeat split.
  - simpl. split; [eexists; reflexivity|].
    destruct (offlineSupport_of options); simpl.
    + split; [reflexivity|]. split; [|intros H; discriminate H].
      intros _. exists (fresh_operation env ep m b options w).
      unfold pushed, queue. simpl. repeat split. intros ->. reflexivity.
    + split; [reflexivity|]. split; [intros H; discriminate H|]. intros _. repeat split.
Qed.

Lemma C5_failed_online_call_witness :
  (exists msg,
     fst (performOperation env_refusing schedule POST (JObj []) no_options online_world)
       = Normal (mkResult false None (Some msg) None))
  /\ (exists msg,
        fst (performOperation env_throwing schedule PUT (JObj [])
               (mkOptions None (Some false) None) online_world)
          = Normal (mkResult false None (Some msg) None)).
Proof.
  split.
  - apply (C5_failed_online_call env_refusing schedule POST (JObj []) no_options online_world
             eq_refl).
    intros resp H. injection H as <-. right. simpl. lia.
  - apply (C5_failed_online_call env_throwing schedule PUT (JObj [])
             (mkOptions None (Some false) None) online_world eq_refl).
    intros resp H. discriminate H.
Defined.

(** ** C9 *)

(** C9: a call made while online to which the transport answers with a
    status in [200,300) returns [{success: true, data}] with the response's
    data, and leaves the queue (hence its length), the store and the save
    log as they were; the returned result and the queue are the same
    whatever Firestore does with the mirror write. *)
Theorem C9_success_passes_through env ep m b options w resp :
  isOnline (layer w) = true ->
  api_request env (length (requests (outside w))) (request_for m ep b) = Returns resp ->
  200 <= status resp < 300 ->
  forall firestore,
    let r := performOperation (with_firestore firestore env) ep m b options w in
    fst r = Normal (mkResult true (resp_data resp) None None)
    /\ queue (snd r) = queue w
    /\ setItemCalls (outside (snd r)) = setItemCalls (outside w)
    /\ storage (outside (snd r)) = storage (outside w).
Proof.
  intros Hon Hout Hst firestore r. subst r. rewrite performOperation_run. unfold performed.
  rewrite Hon. simpl. rewrite Hout.
  apply is_2xx_range in Hst. rewrite Hst. simpl.
  destruct (maybe_mirrored_fields (with_firestore firestore env) options resp
              (requested (request_for m ep b) (stamped w))) as (Hl & Hs & Hc & _).
  unfold queue. rewrite Hl, Hs, Hc. repeat split.
Qed.

Lemma C9_success_passes_through_witness :
  fst (performOperation (with_firestore (fun _ => Some (ErrorInstance "unavailable")) env_fine)
         schedule POST (JObj []) (mkOptions None None (Some "scheduledWorkouts")) online_world)
    = Normal (mkResult true (Some (JObj [("id", JNum 7)])) None None)
  /\ queue (snd (performOperation
                   (with_firestore (fun _ => Some (ErrorInstance "unavailable")) env_fine)
                   schedule POST (JObj []) (mkOptions None None (Some "scheduledWorkouts"))
                   online_world))
     = queue online_world.
Proof.
  destruct (C9_success_passes_through env_fine schedule POST (JObj [])
              (mkOptions None None (Some "scheduledWorkouts")) online_world
              (mkResponse 200 (Some (JObj [("id", JNum 7)])) None)
              eq_refl eq_refl ltac:(simpl; lia)
              (fun _ => Some (ErrorInstance "unavailable"))) as (H1 & H2 & _).
  split; assumption.
Defined.

(** ** C6 *)

(** The collaborators do throw: a rejected write, left to itself,
    completes abruptly. *)
Example AsyncStorage_setItem_throws :
  fst (AsyncStorage_setItem env_store_down [] initial_world)
    = Throw (ErrorInstance "database or disk is full").
Proof. reflexivity. Qed.

(** C6: [performOperation], [syncPendingOperations] (and [manualSync])
    complete normally on every input and whatever the transport, the store
    and the mirror do - answer with an error status, throw or reject;
    [performOperation] always yields a result record
    [{success, data?, error?, queued?}]. *)
Theorem C6_nothing_escapes env :
  (forall ep m b options w,
     exists (r : OperationResult) w', performOperation env ep m b options w = (Normal r, w'))
  /\ (forall w, exists w', syncPendingOperations env w = (Normal tt, w'))
  /\ (forall w, exists (r : bool) w', manualSync env w = (Normal r, w')).
Proof.
  split; [|split].
  - intros ep m b options w. rewrite performOperation_run. eexists. eexists. reflexivity.
  - intros w. rewrite syncPendingOperations_guards. eexists. reflexivity.
  - intros w. rewrite manualSync_run. eexists. eexists. reflexivity.
Qed.

(** ** C7 *)

(** C7: every call of a public method is write-through.  When it returns,
    either the in-memory queue is as it was and no save was issued, or the
    queue was touched (an append, the sort, the updates of [retryCount]
    and [timestamp], the removals) and the last thing done to the store is
    one save of the whole final queue, issued before the call completes. *)
Theorem C7_write_through env :
  (forall ep m b options w,
     write_through env w (snd (performOperation env ep m b options w)))
  /\ (forall w, write_through env w (snd (syncPendingOperations env w)))
  /\ (forall w, write_through env w (snd (manualSync env w))).
Proof.
  split; [|split].
  - intros. rewrite performOperation_run. simpl. apply performed_write_through.
  - apply sync_write_through.
  - intros w. rewrite manualSync_run. simpl.
    destruct (negb (isOnline (layer w))); [apply write_through_same; reflexivity|].
    destruct (syncInProgress (layer w)); [apply write_through_same; reflexivity|].
    apply sync_write_through.
Qed.

(** ** C10 *)

(** C10: [manualSync] returns [false] exactly when the device is offline
    or a sync is in progress, and [true] in every other state - also when
    the inner [syncPendingOperations] is turned away by the rate limit, in
    which case the call returned [true] and did nothing: the fields of the
    class, the store, and the calls received by store and transport are
    as before. *)
Theorem C10_manualSync_result env w :
  (exists w',
     manualSync env w = (Normal (isOnline (layer w) && negb (syncInProgress (layer w))), w'))
  /\ (isOnline (layer w) = true ->
      syncInProgress (layer w) = false ->
      time_of env w - lastSyncAttempt (layer w) < 5000 ->
      fst (manualSync env w) = Normal true /\ no_op w (snd (manualSync env w))).
Proof.
  rewrite manualSync_run. split; [eexists; reflexivity|].
  intros Hon Hip Hrate. rewrite Hon, Hip. simpl. split; [reflexivity|].
  rewrite syncPendingOperations_guards. simpl. rewrite Hon, Hip. simpl.
  apply Z.ltb_lt in Hrate. rewrite Hrate. apply turned_away_no_op.
Qed.

Lemma C10_manualSync_result_witness :
  fst (manualSync env_fine recently_synced) = Normal true
  /\ no_op recently_synced (snd (manualSync env_fine recently_synced)).
Proof.
  apply (C10_manualSync_result env_fine recently_synced); [reflexivity | reflexivity |].
  vm_compute. reflexivity.
Defined.

(** ** C8 *)

(** C8, as stated, fails: two calls one millisecond apart, the first
    turned away by the rate limit (4999 ms after the last pass), the
    second let through (5000 ms after it).  The second call does read and
    mutate the queue: it sends the queued operation and empties the
    queue. *)
Lemma C8_second_call_can_drain :
  let w1 := snd (syncPendingOperations env_one_ms_apart synced_at_6000) in
  let w2 := snd (syncPendingOperations env_one_ms_apart w1) in
  time_of env_one_ms_apart w1 - time_of env_one_ms_apart synced_at_6000 < 5000
  /\ queue w1 = [op_a]
  /\ requests (outside w1) = []
  /\ queue w2 = []
  /\ requests (outside w2) = [request_of op_a]
  /\ queue w2 <> queue w1.
Proof. vm_compute. repeat split; discriminate. Qed.

(** C8, amended.  The three guards are checked in the order in progress,
    offline, rate limit, and a call stopped by one of them is a no-op on
    the queue, the store and the transport (the first two return before
    the clock is read, and each writes its own console line).  The rate
    limit counts from the start of the last pass that got through the
    guards, not from the last call: when a call gets through and the next
    call reads the clock less than 5000 ms later, that next call is a
    no-op; so of two consecutive calls less than 5000 ms apart at most one
    runs the drain logic (one save is issued at most). *)
Theorem C8_rate_limited_sync env w :
  let w1 := snd (syncPendingOperations env w) in
  let w2 := snd (syncPendingOperations env w1) in
  (syncInProgress (layer w) = true ->
     w1 = turned_away SyncAlreadyInProgressSkipping false w /\ no_op w w1)
  /\ (syncInProgress (layer w) = false -> isOnline (layer w) = false ->
     w1 = turned_away CannotSyncOffline false w /\ no_op w w1)
  /\ (syncInProgress (layer w) = false -> isOnline (layer w) = true ->
      time_of env w - lastSyncAttempt (layer w) < 5000 ->
     w1 = turned_away SkippingSyncTooSoon true w /\ no_op w w1)
  /\ (lets_through env w = true ->
      time_of env w1 - time_of env w < 5000 ->
      no_op w1 w2)
  /\ (time_of env w1 - time_of env w < 5000 ->
      (length (setItemCalls (outside w2)) <= S (length (setItemCalls (outside w))))%nat).
Proof.
  intros w1 w2.
  assert (Hthrough : lets_through env w = true -> time_of env w1 - time_of env w < 5000 ->
                     no_op w1 w2).
  { intros Hlet Hnear. subst w2 w1. rewrite (syncPendingOperations_guards env w) in *.
    simpl in *. unfold lets_through in Hlet.
    apply andb_prop in Hlet as [Hlet Hrate]. apply andb_prop in Hlet as [Hip Hon].
    apply negb_true_iff in Hip, Hrate. rewrite Hip, Hon, Hrate in *. simpl in *.
    rewrite syncPendingOperations_guards. simpl.
    rewrite Hon. simpl. apply Z.ltb_lt in Hnear. rewrite Hnear. apply turned_away_no_op. }
  split; [|split; [|split; [|split]]].
  - intros Hip. subst w1. rewrite syncPendingOperations_guards. simpl. rewrite Hip.
    split; [reflexivity | apply turned_away_no_op].
  - intros Hip Hon. subst w1. rewrite syncPendingOperations_guards. simpl. rewrite Hip, Hon.
    split; [reflexivity | apply turned_away_no_op].
  - intros Hip Hon Hrate. subst w1. rewrite syncPendingOperations_guards. simpl.
    rewrite Hip, Hon. apply Z.ltb_lt in Hrate. simpl. rewrite Hrate.
    split; [reflexivity | apply turned_away_no_op].
  - exact Hthrough.
  - intros Hnear. destruct (lets_through env w) eqn:Hlet.
    + destruct (Hthrough eq_refl Hnear) as (_ & _ & Hc & _). rewrite Hc.
      subst w1. rewrite syncPendingOperations_guards. simpl.
      unfold lets_through in Hlet.
      apply andb_prop in Hlet as [Hlet Hrate]. apply andb_prop in Hlet as [Hip Hon].
      apply negb_true_iff in Hip, Hrate. rewrite Hip, Hon, Hrate. simpl.
      rewrite length_app. simpl. lia.
    + assert (Hw1 : setItemCalls (outside w1) = setItemCalls (outside w)).
      { subst w1. rewrite syncPendingOperations_guards. simpl. unfold lets_through in Hlet.
        destruct (syncInProgress (layer w)); [reflexivity|].
        destruct (isOnline (layer w)); [|reflexivity]. simpl in *.
        destruct (time_of env w - lastSyncAttempt (layer w) <? 5000)%Z;
          [reflexivity | discriminate Hlet]. }
      rewrite <- Hw1. subst w2. rewrite syncPendingOperations_guards. simpl.
      destruct (syncInProgress (layer w1)); [simpl; lia|].
      destruct (negb (isOnline (layer w1))); [simpl; lia|].
      destruct (time_of env w1 - lastSyncAttempt (layer w1) <? 5000)%Z; [simpl; lia|].
      simpl. rewrite length_app. simpl. lia.
Qed.

Lemma C8_rate_limited_sync_witness :
  lets_through env_fine ready_world = true
  /\ no_op (snd (syncPendingOperations env_fine ready_world))
       (snd (syncPendingOperations env_fine (snd (syncPendingOperations env_fine ready_world)))).
Proof.
  split; [reflexivity|].
  apply (C8_rate_limited_sync env_fine ready_world); [reflexivity|].
  vm_compute. reflexivity.
Defined.

(** ** C3 *)

Lemma drained_requests env w :
  requests (outside (drained env w)) =
    requests (outside w) ++ map request_of (List.filter (due (time_of env w)) (sorted_queue w)).
Proof. unfold drained, pass_turns. simpl. rewrite requests_of_turns. reflexivity. Qed.

Lemma due_fresh now op : retryCount op = 0%nat -> due now op = true.
Proof. unfold due, expired, waiting. intros ->. reflexivity. Qed.

Lemma filter_all {A} (f : A -> bool) l : Forall (fun x => f x = true) l -> List.filter f l = l.
Proof.
  induction 1 as [|x l Hx _ IH]; simpl; [reflexivity|]. rewrite Hx, IH. reflexivity.
Qed.

(** C3: a pass that gets through the guards hands the transport, after
    what it had received before, the requests of the queued operations
    that are due (not past the retry ceiling, not waiting for backoff), in
    the order of the sorted queue: the queue rearranged so that a lower
    priority rank (high, medium, low) comes first and, within one
    priority, the older timestamp.  When no queued operation has been
    retried yet, every one of them is attempted. *)
Theorem C3_attempt_order env w :
  lets_through env w = true ->
  let w' := snd (syncPendingOperations env w) in
  let attempted := List.filter (due (time_of env w)) (sorted_queue w) in
  requests (outside w') = requests (outside w) ++ map request_of attempted
  /\ Permutation (sorted_queue w) (queue w)
  /\ StronglySorted ordered_before (sorted_queue w)
  /\ StronglySorted ordered_before attempted
  /\ (Forall (fun op => retryCount op = 0%nat) (queue w) -> attempted = sorted_queue w).
Proof.
  intros Hlet w' attempted. subst w' attempted.
  rewrite syncPendingOperations_drains by exact Hlet. simpl.
  split; [apply drained_requests|].
  split; [apply Array_sort_Permutation|].
  split; [apply sorted_queue_sorted|].
  split; [apply StronglySorted_filter, sorted_queue_sorted|].
  intros Hall. apply filter_all.
  rewrite <- (Array_sort_Permutation compareOperations (queue w)) in Hall.
  eapply Forall_impl; [exact Hall|]. intros op. apply due_fresh.
Qed.

(** In particular: the operations queued with priorities low, high, medium
    in that order are sent in the order high, medium, low. *)
Lemma C3_attempt_order_witness :
  map priority (queue back_online) = [low; high; medium]
  /\ requests (outside (snd (syncPendingOperations env_fine back_online))) =
       [mkRequest POST schedule (Some (JObj [("workoutId", JNum 7)]));
        mkRequest PUT "/api/workouts/7" (Some (JObj [("duration", JNum 30)]));
        mkRequest DELETE "/api/workouts/1/cancel" None].
Proof.
  split; [reflexivity|].
  rewrite (proj1 (C3_attempt_order env_fine back_online eq_refl)). reflexivity.
Defined.

(** ** C4 *)

Lemma waiting_iff now op :
  (0 < retryCount op)%nat ->
  waiting now op = true <->
  now - timestamp op < RETRY_BACKOFF_MS * 2 ^ Z.of_nat (retryCount op).
Proof.
  intros Hrc. unfold waiting, backoffDelay.
  apply Nat.ltb_lt in Hrc. rewrite Hrc. simpl. apply Z.ltb_lt.
Qed.

Lemma turn_waiting env now k op :
  expired op = false -> waiting now op = true ->
  turn env now k op =
    mkTurn op false false false [WaitingForBackoff (id op) (backoffDelay op)].
Proof. intros He Hw. unfold turn. rewrite He, Hw. reflexivity. Qed.

Lemma turn_due env now k op :
  expired op = false -> waiting now op = false ->
  length (outcomes (id op) (lines (turn env now k op))) = 1%nat.
Proof.
  intros He Hw. unfold turn. rewrite He, Hw.
  destruct (api_request env k (request_of op)) as [r|e]; [destruct (is_2xx r)|];
    unfold outcomes; simpl; rewrite String.eqb_refl; reflexivity.
Qed.

Lemma with_id_In opid op q : with_id opid q = [op] -> In op q.
Proof.
  intros H. assert (Hin : In op (with_id opid q)) by (rewrite H; left; reflexivity).
  apply List.filter_In in Hin. apply Hin.
Qed.

(** C4, as stated, fails for a queued operation with [retryCount >= 5]
    (which is [> 0]): inside its backoff window it is not left in the
    queue but removed, and past the window it is not attempted but
    removed, nothing being sent. *)
Lemma C4_spent_operation_is_dropped :
  let w_in := snd (syncPendingOperations env_fine holding_spent) in
  let w_past := snd (syncPendingOperations env_a_minute_later holding_spent) in
  (0 < retryCount op_spent)%nat
  /\ time_of env_fine holding_spent - timestamp op_spent
       < RETRY_BACKOFF_MS * 2 ^ Z.of_nat (retryCount op_spent)
  /\ ~ In op_spent (queue w_in)
  /\ RETRY_BACKOFF_MS * 2 ^ Z.of_nat (retryCount op_spent)
       <= time_of env_a_minute_later holding_spent - timestamp op_spent
  /\ requests (outside w_past) = []
  /\ attempts (id op_spent) w_past = 0%nat.
Proof.
  vm_compute. repeat split; try discriminate; try lia.
Qed.

(** C4, amended: for a queued operation with
    [0 < retryCount < MAX_RETRY_ATTEMPTS] (the only one queued under its
    id), a pass that gets through the guards at time [now] skips it -
    leaves it in the queue with every field unchanged and records no
    attempt on it - exactly when
    [now - timestamp < RETRY_BACKOFF_MS * 2^retryCount], with
    [RETRY_BACKOFF_MS = 1000]; otherwise it attempts it once: its request
    is among those the pass sends and one outcome is recorded for it. *)
Theorem C4_backoff env w op :
  lets_through env w = true ->
  with_id (id op) (queue w) = [op] ->
  (0 < retryCount op < MAX_RETRY_ATTEMPTS)%nat ->
  let now := time_of env w in
  let w' := snd (syncPendingOperations env w) in
  RETRY_BACKOFF_MS = 1000
  /\ (now - timestamp op < RETRY_BACKOFF_MS * 2 ^ Z.of_nat (retryCount op) ->
      with_id (id op) (queue w') = [op]
      /\ attempts (id op) w' = attempts (id op) w)
  /\ (RETRY_BACKOFF_MS * 2 ^ Z.of_nat (retryCount op) <= now - timestamp op ->
      attempts (id op) w' = S (attempts (id op) w)
      /\ exists earlier later,
           requests (outside w') = requests (outside w) ++ earlier ++ request_of op :: later).
Proof.
  intros Hlet Hq [Hpos Hmax] now w'. subst now w'.
  rewrite syncPendingOperations_drains by exact Hlet. cbn [snd].
  assert (He : expired op = false) by (unfold expired; apply Nat.leb_gt; exact Hmax).
  destruct (drained_with_id env w (id op) op Hq) as (k & Hq' & Hc'). cbv zeta in Hq', Hc'.
  split; [reflexivity|]. split.
  - intros Hin. apply (waiting_iff _ _ Hpos) in Hin.
    unfold attempts. rewrite Hq', Hc', (turn_waiting env _ k op He Hin). simpl.
    rewrite app_nil_r. split; reflexivity.
  - intros Hpast.
    assert (Hw : waiting (time_of env w) op = false).
    { destruct (waiting (time_of env w) op) eqn:E; [|reflexivity].
      apply (waiting_iff _ _ Hpos) in E. lia. }
    split.
    + unfold attempts. rewrite Hc', length_app, (turn_due env _ k op He Hw). lia.
    + rewrite drained_requests.
      assert (Hin : In op (List.filter (due (time_of env w)) (sorted_queue w))).
      { apply List.filter_In. split.
        - apply (Permutation_in op (symmetry (Array_sort_Permutation compareOperations (queue w)))).
          exact (with_id_In _ _ _ Hq).
        - unfold due. rewrite He, Hw. reflexivity. }
      apply List.in_split in Hin as (l1 & l2 & Hsplit). rewrite Hsplit.
      exists (map request_of l1), (map request_of l2).
      rewrite map_app. reflexivity.
Qed.

(** In particular: with [retryCount = 2] and [timestamp = t], a pass at
    [t + 1000] skips the operation and a pass at [t + 4001] attempts it. *)
Lemma C4_backoff_witness :
  (time_of env_fine holding_retried = timestamp op_retried_twice + 1000
   /\ with_id (id op_retried_twice)
        (queue (snd (syncPendingOperations env_fine holding_retried))) = [op_retried_twice]
   /\ attempts (id op_retried_twice) (snd (syncPendingOperations env_fine holding_retried))
      = attempts (id op_retried_twice) holding_retried)
  /\ (time_of env_later holding_retried = timestamp op_retried_twice + 4001
      /\ attempts (id op_retried_twice) (snd (syncPendingOperations env_later holding_retried))
         = S (attempts (id op_retried_twice) holding_retried)).
Proof.
  split.
  - split; [reflexivity|].
    apply (C4_backoff env_fine holding_retried op_retried_twice eq_refl eq_refl
             ltac:(split; vm_compute; lia)).
    vm_compute. reflexivity.
  - split; [reflexivity|].
    apply (C4_backoff env_later holding_retried op_retried_twice eq_refl eq_refl
             ltac:(split; vm_compute; lia)).
    vm_compute. discriminate.
Defined.

(** ** C2 *)

Lemma reported_success_outcomes opid w :
  reported_success opid w <-> In (OperationSucceeded opid) (outcomes opid (console (outside w))).
Proof.
  unfold reported_success, outcomes. rewrite List.filter_In. simpl.
  rewrite String.eqb_refl. tauto.
Qed.

(** Why an iteration marks its element for removal. *)
Lemma turn_removal env now k op :
  let t := turn env now k op in
  succeeded t || given_up t = true ->
  In (OperationSucceeded (id op)) (outcomes (id op) (lines t))
  \/ (expired op = true /\ outcomes (id op) (lines t) = [])
  \/ (S (retryCount op) = MAX_RETRY_ATTEMPTS
      /\ length (outcomes (id op) (lines t)) = 1%nat).
Proof.
  unfold turn. destruct (expired op) eqn:He; simpl.
  { intros _. right. left. split; reflexivity. }
  destruct (waiting now op); simpl; [discriminate|].
  unfold expired in He. apply Nat.leb_gt in He.
  destruct (api_request env k (request_of op)) as [r|e]; [destruct (is_2xx r)|]; simpl.
  - intros _. left. unfold outcomes. simpl. rewrite String.eqb_refl. left. reflexivity.
  - intros Hg. apply Nat.leb_le in Hg. right. right.
    unfold outcomes. simpl. rewrite String.eqb_refl. split; [lia | reflexivity].
  - intros Hg. apply Nat.leb_le in Hg. right. right.
    unfold outcomes. simpl. rewrite String.eqb_refl. split; [lia | reflexivity].
Qed.

Lemma env_refusing_never_accepts r : never_accepts env_refusing r.
Proof. intros k resp H. injection H as <-. reflexivity. Qed.

(** The test of the spec, run: five passes a minute apart make five
    attempts and the operation is gone; after four it is still queued
    with [retryCount = 4]. *)
Example five_failures_then_gone :
  attempts (id op_a) after_five_passes = 5%nat
  /\ queue after_five_passes = []
  /\ map retryCount (queue (pass (pass (pass (pass ready_world))))) = [4%nat]
  /\ attempts (id op_a) (pass after_five_passes) = 5%nat.
Proof. vm_compute. repeat split. Qed.

(** C2.  With [MAX_RETRY_ATTEMPTS = 5]:
    - for an operation queued under an id of its own whose request the
      transport never answers with a 2xx status, and through any sequence
      of calls of the public methods and connectivity changes (no
      [performOperation] call building that id again): the sync passes
      record at most [5 - retryCount] attempts on it (at most 5 for an
      operation queued with [retryCount = 0]), never a success, and while
      it is still queued its [retryCount] is the initial one plus the
      number of those attempts and is below 5 as soon as one was made - so
      it is out of the queue once [retryCount] reaches 5;
    - an operation that has left the queue is never back in it;
    - in a pass that gets through the guards, an operation with
      [retryCount >= 5] is removed with no attempt, and an operation
      leaves the queue only if the pass reported its success, or it was at
      the ceiling already, or its fifth failure was recorded in the
      pass. *)
Theorem C2_retry_ceiling env opid :
  MAX_RETRY_ATTEMPTS = 5%nat
  /\ (forall op w0 w,
        with_id opid (queue w0) = [op] ->
        never_accepts env (request_of op) ->
        history env opid w0 w ->
        (attempts opid w <= attempts opid w0 + (MAX_RETRY_ATTEMPTS - retryCount op))%nat
        /\ (reported_success opid w -> reported_success opid w0)
        /\ (with_id opid (queue w) = []
            \/ exists op',
                 with_id opid (queue w) = [op']
                 /\ retryCount op' =
                      (retryCount op + (attempts opid w - attempts opid w0))%nat
                 /\ (attempts opid w0 < attempts opid w ->
                     retryCount op' < MAX_RETRY_ATTEMPTS)%nat))
  /\ (forall w1 w2,
        history env opid w1 w2 ->
        with_id opid (queue w1) = [] -> with_id opid (queue w2) = [])
  /\ (forall op w,
        with_id opid (queue w) = [op] ->
        lets_through env w = true ->
        let w' := snd (syncPendingOperations env w) in
        ((MAX_RETRY_ATTEMPTS <= retryCount op)%nat ->
         with_id opid (queue w') = [] /\ attempts opid w' = attempts opid w)
        /\ (with_id opid (queue w') = [] ->
            reported_success opid w'
            \/ (MAX_RETRY_ATTEMPTS <= retryCount op)%nat
            \/ (S (retryCount op) = MAX_RETRY_ATTEMPTS
                /\ attempts opid w' = S (attempts opid w)))).
Proof.
  split; [reflexivity|]. split; [|split].
  - intros op w0 w Hq Hnever Hh.
    destruct (tracked_history env opid op w0 w Hq Hnever Hh)
      as (fails & Hout & Hfails & Hlen & Hqueue).
    assert (Hatt : attempts opid w = (attempts opid w0 + length fails)%nat)
      by (unfold attempts; rewrite Hout, length_app; reflexivity).
    split; [lia|]. split.
    + rewrite !reported_success_outcomes, Hout. intros Hin.
      apply in_app_or in Hin as [Hin | Hin]; [exact Hin|].
      rewrite List.Forall_forall in Hfails. destruct (Hfails _ Hin). reflexivity.
    + destruct Hqueue as [Hgone | (op' & Hq' & Hrc & _ & Hlt)]; [left; exact Hgone|].
      right. exists op'. split; [exact Hq'|]. split; [lia|].
      intros Hmore. apply Hlt. destruct fails; [simpl in Hatt; lia | discriminate].
  - intros w1 w2. apply gone_for_good.
  - intros op w Hq Hlet w'. subst w'.
    rewrite syncPendingOperations_drains by exact Hlet. cbn [snd].
    pose proof (with_id_singleton_id _ _ _ Hq) as Hid.
    destruct (drained_with_id env w opid op Hq) as (k & Hq' & Hc'). cbv zeta in Hq', Hc'.
    split.
    + intros Hmax. apply Nat.leb_le in Hmax. fold (expired op) in Hmax.
      unfold attempts. rewrite Hq', Hc'. unfold turn. rewrite Hmax. simpl.
      rewrite app_nil_r. split; reflexivity.
    + intros Hgone. rewrite Hq' in Hgone.
      destruct (succeeded (turn env (time_of env w) k op)
                || given_up (turn env (time_of env w) k op)) eqn:Hmark; [|discriminate Hgone].
      destruct (turn_removal env (time_of env w) k op Hmark) as [Hs | [[He Ho] | [Hrc Ho]]];
        rewrite Hid in *.
      * left. apply reported_success_outcomes. rewrite Hc'. apply in_or_app. right. exact Hs.
      * right. left. apply Nat.leb_le. exact He.
      * right. right. split; [exact Hrc|].
        unfold attempts. rewrite Hc', length_app, Ho. lia.
Qed.

Lemma C2_retry_ceiling_witness :
  (attempts (id op_a) after_five_passes
     <= attempts (id op_a) ready_world + (MAX_RETRY_ATTEMPTS - retryCount op_a))%nat
  /\ (reported_success (id op_a) after_five_passes -> reported_success (id op_a) ready_world).
Proof.
  destruct (C2_retry_ceiling env_refusing (id op_a)) as (_ & Hrefused & _).
  destruct (Hrefused op_a ready_world after_five_passes eq_refl
              (env_refusing_never_accepts (request_of op_a))
              (history_sync _ _ _ _ (history_sync _ _ _ _ (history_sync _ _ _ _
                 (history_sync _ _ _ _ (history_sync _ _ _ _
                    (history_start env_refusing (id op_a) ready_world)))))))
    as (Hatt & Hsucc & _).
  split; assumption.
Defined.

(** * Further properties *)

(** ** Connectivity events *)

Lemma onNetInfoChange_run env state w :
  onNetInfoChange env state w =
    (Normal tt,
     if negb (isOnline (layer w)) && reports_online state
     then snd (syncPendingOperations env (on_layer (with_isOnline true) w))
     else on_layer (with_isOnline (reports_online state)) w).
Proof.
  unfold onNetInfoChange.
  unfold bind at 1. unfold gets at 1.
  unfold bind at 1. unfold update at 1.
  unfold bind at 1. unfold gets at 1. cbn [layer on_layer with_isOnline isOnline].
  destruct (negb (isOnline (layer w)) && reports_online state) eqn:Hedge.
  - apply andb_prop in Hedge as [_ ->].
    unfold bind at 1. unfold bind at 1. unfold console_log_unkept at 1, ret at 1.
    rewrite syncPendingOperations_guards.
    unfold bind, gets. cbn [fst snd].
    match goal with |- (if ?c then _ else _) _ = _ => destruct c end; reflexivity.
  - unfold bind at 1. unfold ret at 1. unfold bind, gets.
    cbn [layer on_layer with_isOnline isOnline].
    match goal with |- (if ?c then _ else _) _ = _ => destruct c end; reflexivity.
Qed.
(** X1.  A connectivity event that is not a reconnect - the class was
    online already, or the event reports offline - sends nothing and
    touches neither the queue, the store nor the sync bookkeeping: only
    [isOnline] takes the reported value. *)
Theorem X1_only_a_reconnect_syncs env state w :
  isOnline (layer w) = true \/ reports_online state = false ->
  let r := onNetInfoChange env state w in
  fst r = Normal tt
  /\ isOnline (layer (snd r)) = reports_online state
  /\ only_connectivity_changed w (snd r).
Proof.
  intros Hnot r. subst r. rewrite onNetInfoChange_run. cbn [fst snd].
  assert (Hedge : negb (isOnline (layer w)) && reports_online state = false).
  { destruct Hnot as [-> | ->]; [reflexivity | apply andb_false_r]. }
  rewrite Hedge. repeat split.
Qed.

Lemma X1_only_a_reconnect_syncs_witness :
  only_connectivity_changed back_online (snd (onNetInfoChange env_fine wifi_lost back_online))
  /\ isOnline (layer (snd (onNetInfoChange env_fine wifi_lost back_online))) = false.
Proof.
  destruct (X1_only_a_reconnect_syncs env_fine wifi_lost back_online
              (or_introl eq_refl)) as (_ & Hon & Hsame).
  split; [exact Hsame | exact Hon].
Defined.

Lemma turn_accepted env now k op :
  always_accepts env -> retryCount op = 0%nat ->
  turn env now k op =
    mkTurn op true true false
      [ExecutingOperation (method op) (endpoint op); OperationSucceeded (id op)].
Proof.
  intros Hacc Hrc. unfold turn, expired, waiting. rewrite Hrc. simpl.
  destruct (Hacc k (request_of op)) as (resp & -> & ->). reflexivity.
Qed.

Lemma turns_accepted env now ops : forall k,
  always_accepts env ->
  Forall (fun op => retryCount op = 0%nat) ops ->
  map after (turns env now k ops) = ops
  /\ ids_where succeeded (turns env now k ops) = map id ops
  /\ ids_where given_up (turns env now k ops) = [].
Proof.
  induction ops as [|op rest IH]; intros k Hacc Hall; [repeat split|].
  inversion Hall as [|? ? Hop Hrest]; subst.
  simpl. rewrite (turn_accepted env now k op Hacc Hop). simpl.
  destruct (IH (S k) Hacc Hrest) as (H1 & H2 & H3).
  unfold ids_where in *. simpl. rewrite H1, H2, H3. repeat split.
Qed.

Lemma includes_In l x : In x l -> includes l x = true.
Proof.
  intros Hin. unfold includes. apply existsb_exists. exists x.
  split; [exact Hin | apply String.eqb_refl].
Qed.

Lemma filter_none {A} (f : A -> bool) l :
  Forall (fun x => f x = false) l -> List.filter f l = [].
Proof. induction 1 as [|x l Hx _ IH]; simpl; [reflexivity | rewrite Hx; exact IH]. Qed.

Lemma drained_all_accepted env w :
  always_accepts env ->
  Forall (fun op => retryCount op = 0%nat) (queue w) ->
  queue (drained env w) = []
  /\ requests (outside (drained env w)) = requests (outside w) ++ map request_of (sorted_queue w).
Proof.
  intros Hacc Hall.
  assert (Hsorted : Forall (fun op => retryCount op = 0%nat) (sorted_queue w)).
  { unfold sorted_queue. rewrite (Array_sort_Permutation compareOperations (queue w)).
    exact Hall. }
  destruct (turns_accepted env (time_of env w) (sorted_queue w)
              (length (requests (outside w))) Hacc Hsorted) as (H1 & H2 & H3).
  split.
  - unfold drained, queue, survivors, pass_turns. cbn [layer pendingOperations].
    rewrite H1, H2, H3. apply filter_none.
    apply List.Forall_forall. intros op Hin. unfold still_pending.
    rewrite includes_In; [reflexivity|]. apply in_map. exact Hin.
  - rewrite drained_requests. f_equal. f_equal. apply filter_all.
    eapply Forall_impl; [exact Hsorted|]. intros op. apply due_fresh.
Qed.

(** X2.  Reconnect delivers what was queued offline: when the class is
    offline and idle, its last pass started at least 5000 ms ago, none of
    the queued operations has been retried yet and the transport accepts
    every request, a connectivity event reporting online sends the request
    of every queued operation, in the order of the sorted queue, and
    leaves the queue empty; the store then holds the empty list if the
    write resolves. *)
Theorem X2_reconnect_delivers_the_queue env state w :
  isOnline (layer w) = false ->
  reports_online state = true ->
  syncInProgress (layer w) = false ->
  5000 <= time_of env w - lastSyncAttempt (layer w) ->
  Forall (fun op => retryCount op = 0%nat) (queue w) ->
  always_accepts env ->
  let w' := snd (onNetInfoChange env state w) in
  isOnline (layer w') = true
  /\ queue w' = []
  /\ requests (outside w') = requests (outside w) ++ map request_of (sorted_queue w)
  /\ (storage_setItem env (length (setItemCalls (outside w))) = None ->
      storage (outside w') = Some []).
Proof.
  intros Hoff Hon Hip Hrate Hall Hacc w'. subst w'.
  rewrite onNetInfoChange_run. cbn [snd]. rewrite Hoff, Hon. cbn [negb andb].
  set (w1 := on_layer (with_isOnline true) w).
  assert (Hlet : lets_through env w1 = true).
  { unfold lets_through, w1. cbn [layer on_layer with_isOnline syncInProgress isOnline
      lastSyncAttempt]. rewrite Hip. cbn [negb andb].
    apply negb_true_iff, Z.ltb_ge. exact Hrate. }
  rewrite syncPendingOperations_drains by exact Hlet. cbn [snd].
  destruct (drained_all_accepted env w1 Hacc Hall) as [Hq Hr].
  split; [reflexivity|]. split; [exact Hq|]. split; [exact Hr|].
  intros Hsave. unfold queue in Hq. unfold drained in *. cbn [outside storage layer
    pendingOperations] in *. unfold w1 at 1. cbn [outside on_layer]. rewrite Hsave.
  f_equal. exact Hq.
Qed.

Lemma env_fine_always_accepts : always_accepts env_fine.
Proof. intros k r. eexists. split; reflexivity. Qed.

Lemma X2_reconnect_delivers_the_queue_witness :
  map priority (queue three_waiting) = [low; high; medium]
  /\ queue (snd (onNetInfoChange env_fine wifi_back three_waiting)) = []
  /\ storage (outside (snd (onNetInfoChange env_fine wifi_back three_waiting))) = Some [].
Proof.
  split; [reflexivity|].
  destruct (X2_reconnect_delivers_the_queue env_fine wifi_back three_waiting
              eq_refl eq_refl eq_refl ltac:(vm_compute; discriminate)
              ltac:(repeat constructor) env_fine_always_accepts)
    as (_ & Hq & _ & Hs).
  split; [exact Hq | exact (Hs eq_refl)].
Defined.

(** X3.  A reconnect that falls inside the rate limit, or arrives while a
    pass is in progress, is not made up for: the event sets [isOnline] and
    the sync it triggers is turned away, so nothing is sent and the queued
    operations stay queued until something else triggers a sync. *)
Theorem X3_reconnect_inside_rate_limit env state w :
  isOnline (layer w) = false ->
  reports_online state = true ->
  syncInProgress (layer w) = true \/ time_of env w - lastSyncAttempt (layer w) < 5000 ->
  let w' := snd (onNetInfoChange env state w) in
  isOnline (layer w') = true
  /\ queue w' = queue w
  /\ requests (outside w') = requests (outside w)
  /\ setItemCalls (outside w') = setItemCalls (outside w)
  /\ storage (outside w') = storage (outside w)
  /\ lastSyncAttempt (layer w') = lastSyncAttempt (layer w).
Proof.
  intros Hoff Hon Hblocked w'. subst w'.
  rewrite onNetInfoChange_run. cbn [snd]. rewrite Hoff, Hon. cbn [negb andb].
  rewrite syncPendingOperations_guards. cbn [snd].
  cbn [layer on_layer with_isOnline syncInProgress isOnline lastSyncAttempt negb].
  destruct (syncInProgress (layer w)) eqn:Hip; [repeat split|].
  destruct Hblocked as [Hip' | Hrate]; [discriminate Hip'|].
  change (time_of env (on_layer (with_isOnline true) w)) with (time_of env w).
  apply Z.ltb_lt in Hrate. rewrite Hrate. repeat split.
Qed.

Lemma X3_reconnect_inside_rate_limit_witness :
  length (queue (snd (onNetInfoChange env_fine wifi_back three_waiting_just_synced))) = 3%nat
  /\ requests (outside (snd (onNetInfoChange env_fine wifi_back three_waiting_just_synced))) = [].
Proof.
  destruct (X3_reconnect_inside_rate_limit env_fine wifi_back three_waiting_just_synced
              eq_refl eq_refl ltac:(right; vm_compute; reflexivity))
    as (_ & Hq & Hr & _).
  rewrite Hq, Hr. split; reflexivity.
Defined.

(** ** What a pass keeps *)

Lemma turn_after env now k op :
  after (turn env now k op) = op \/ after (turn env now k op) = retried now op.
Proof.
  unfold turn. destruct (expired op); [left; reflexivity|].
  destruct (waiting now op); [left; reflexivity|].
  destruct (api_request env k (request_of op)) as [r|e]; [destruct (is_2xx r)|];
    [left | right | right]; reflexivity.
Qed.

Lemma same_operation_later_after env now k op :
  same_operation_later now op (after (turn env now k op)).
Proof.
  destruct (turn_after env now k op) as [-> | ->]; unfold same_operation_later; simpl.
  - repeat split. left. split; reflexivity.
  - repeat split. right. split; reflexivity.
Qed.

Lemma turns_after env now ops : forall k,
  Forall (fun o' => exists o, In o ops /\ same_operation_later now o o')
    (map after (turns env now k ops)).
Proof.
  induction ops as [|op rest IH]; intros k; simpl; [constructor|].
  constructor.
  - exists op. split; [left; reflexivity | apply same_operation_later_after].
  - eapply Forall_impl; [apply IH|]. intros o' (o & Hin & Hsame).
    exists o. split; [right; exact Hin | exact Hsame].
Qed.

Lemma drained_queue_intact env w :
  (length (queue (drained env w)) <= length (queue w))%nat
  /\ Forall (fun o' => exists o, In o (queue w) /\ same_operation_later (time_of env w) o o')
       (queue (drained env w)).
Proof.
  unfold drained, queue at 1 3, survivors, pass_turns. cbn [layer pendingOperations]. split.
  - etransitivity; [apply List.filter_length_le|].
    rewrite length_map, turns_length. unfold sorted_queue.
    rewrite (Permutation_length (Array_sort_Permutation compareOperations (queue w))).
    reflexivity.
  - apply List.Forall_forall. intros o' Hin. apply List.filter_In in Hin as [Hin _].
    pose proof (turns_after env (time_of env w) (sorted_queue w)
                  (length (requests (outside w)))) as Hall.
    rewrite List.Forall_forall in Hall. destruct (Hall o' Hin) as (o & Ho & Hsame).
    exists o. split; [|exact Hsame].
    apply (Permutation_in o (Array_sort_Permutation compareOperations (queue w))). exact Ho.
Qed.

Lemma same_operation_later_refl now o : same_operation_later now o o.
Proof. unfold same_operation_later. repeat split. left. split; reflexivity. Qed.

(** X4.  [syncPendingOperations] never adds an operation to the queue and
    never rewrites one: every operation queued after the call was queued
    before it, with the same id, endpoint, method, body and priority, and
    either the same [retryCount] and [timestamp] or one more retry and the
    start time of the pass as its timestamp.  So the queue never grows and
    a [retryCount] never decreases. *)
Theorem X4_a_pass_keeps_operations_intact env w :
  let w' := snd (syncPendingOperations env w) in
  (length (queue w') <= length (queue w))%nat
  /\ Forall (fun o' => exists o, In o (queue w) /\ same_operation_later (time_of env w) o o')
       (queue w').
Proof.
  intros w'. subst w'. rewrite syncPendingOperations_guards. cbn [snd].
  assert (Hsame : forall line b,
    (length (queue (turned_away line b w)) <= length (queue w))%nat
    /\ Forall (fun o' => exists o, In o (queue w)
                 /\ same_operation_later (time_of env w) o o') (queue (turned_away line b w))).
  { intros line b. split; [reflexivity|]. apply List.Forall_forall. intros o Hin.
    exists o. split; [exact Hin | apply same_operation_later_refl]. }
  destruct (syncInProgress (layer w)); [apply Hsame|].
  destruct (negb (isOnline (layer w))); [apply Hsame|].
  destruct (time_of env w - lastSyncAttempt (layer w) <? 5000)%Z; [apply Hsame|].
  apply drained_queue_intact.
Qed.

(** ** What the result of [performOperation] tells *)

Lemma pushed_queue_length env opid ep m b p line w :
  length (queue (pushed env opid ep m b p line w)) = S (length (queue w)).
Proof. unfold pushed, queue. simpl. rewrite length_app. simpl. lia. Qed.

(** X5.  With [offlineSupport] on, every call that does not succeed is
    queued exactly once, whether the caller is told so ([queued: true],
    offline) or only sees an [error] (online failure); without it nothing
    is ever queued.  In terms of [getPendingOperationsCount]: the count
    after the call is the count before, plus one exactly when
    [offlineSupport] is on and [success] is false; and the [queued] flag is
    set exactly when the call was made offline with [offlineSupport] on. *)
Theorem X5_unsuccessful_calls_are_queued_once env ep m b options w :
  exists res w',
    performOperation env ep m b options w = (Normal res, w')
    /\ fst (getPendingOperationsCount w') =
         Normal (length (queue w)
                 + (if offlineSupport_of options && negb (success res) then 1 else 0))%nat
    /\ (queued res = Some true <->
        isOnline (layer w) = false /\ offlineSupport_of options = true)
    /\ (success res = true -> queue w' = queue w).
Proof.
  rewrite performOperation_run. eexists. eexists. split; [reflexivity|].
  unfold getPendingOperationsCount, gets. cbn [fst]. fold (queue (snd (performed env ep m b options w))).
  unfold performed.
  destruct (isOnline (layer w)) eqn:Hon; cbn [negb andb].
  2:{ destruct (offlineSupport_of options) eqn:Hos; cbn [negb andb fst snd].
      - rewrite pushed_queue_length. cbn [success queued negb].
        split; [f_equal; unfold queue; simpl; lia|].
        split; [tauto | discriminate].
      - destruct (api_request env (length (requests (outside w))) (request_for m ep b))
          as [resp|e]; [destruct (is_2xx resp)|]; cbn [fst snd success queued negb andb].
        + destruct (maybe_mirrored_fields env options resp
                      (requested (request_for m ep b) (stamped w))) as (Hl & _).
          unfold queue. rewrite Hl. split; [f_equal; simpl; lia|].
          split; [split; [discriminate | intros [_ H]; discriminate H] | reflexivity].
        + split; [f_equal; unfold queue; simpl; lia|].
          split; [split; [discriminate | intros [_ H]; discriminate H] | discriminate].
        + split; [f_equal; unfold queue; simpl; lia|].
          split; [split; [discriminate | intros [_ H]; discriminate H] | discriminate]. }
  destruct (api_request env (length (requests (outside w))) (request_for m ep b))
    as [resp|e]; [destruct (is_2xx resp)|]; cbn [fst snd success queued negb andb].
  - destruct (maybe_mirrored_fields env options resp
                (requested (request_for m ep b) (stamped w))) as (Hl & _).
    unfold queue. rewrite Hl. rewrite andb_false_r.
    split; [f_equal; simpl; lia|].
    split; [split; [discriminate | intros [H _]; discriminate H] | reflexivity].
  - rewrite andb_true_r. destruct (offlineSupport_of options).
    + rewrite pushed_queue_length.
      split; [f_equal; unfold queue; simpl; lia|].
      split; [split; [discriminate | intros [H _]; discriminate H] | discriminate].
    + split; [f_equal; unfold queue; simpl; lia|].
      split; [split; [discriminate | intros [H _]; discriminate H] | discriminate].
  - rewrite andb_true_r. destruct (offlineSupport_of options).
    + rewrite pushed_queue_length.
      split; [f_equal; unfold queue; simpl; lia|].
      split; [split; [discriminate | intros [H _]; discriminate H] | discriminate].
    + split; [f_equal; unfold queue; simpl; lia|].
      split; [split; [discriminate | intros [H _]; discriminate H] | discriminate].
Qed.

(** X6.  A call made offline with [offlineSupport: false] is not refused
    on the spot: it goes to the transport like an online call, exactly one
    request is sent, and whatever the answer nothing is queued, nothing is
    saved and no [queued] flag is returned. *)
Theorem X6_offline_without_support_still_tries env ep m b options w :
  isOnline (layer w) = false ->
  offlineSupport_of options = false ->
  exists res w',
    performOperation env ep m b options w = (Normal res, w')
    /\ requests (outside w') = requests (outside w) ++ [request_for m ep b]
    /\ queue w' = queue w
    /\ setItemCalls (outside w') = setItemCalls (outside w)
    /\ storage (outside w') = storage (outside w)
    /\ queued res = None.
Proof.
  intros Hoff Hos. rewrite performOperation_run. eexists. eexists.
  split; [reflexivity|]. unfold performed. rewrite Hoff, Hos. cbn [negb andb].
  destruct (api_request env (length (requests (outside w))) (request_for m ep b))
    as [resp|e]; [destruct (is_2xx resp)|]; cbn [fst snd]; try (repeat split; fail).
  destruct (maybe_mirrored_fields env options resp
              (requested (request_for m ep b) (stamped w))) as (Hl & Hs & Hc & Hr).
  unfold queue. rewrite Hl, Hs, Hc, Hr. repeat split.
Qed.

Lemma X6_offline_without_support_still_tries_witness :
  exists res w',
    performOperation env_refusing schedule POST (JObj []) (mkOptions None (Some false) None)
      offline_world = (Normal res, w')
    /\ requests (outside w') = [mkRequest POST schedule (Some (JObj []))]
    /\ queue w' = [].
Proof.
  destruct (X6_offline_without_support_still_tries env_refusing schedule POST (JObj [])
              (mkOptions None (Some false) None) offline_world eq_refl eq_refl)
    as (res & w' & Hrun & Hr & Hq & _).
  exists res, w'. split; [exact Hrun|]. split; [exact Hr | exact Hq].
Defined.

(** ** The mirror *)

Lemma looped_mirrorWrites q rs ls w :
  mirrorWrites (outside (looped q rs ls w)) = mirrorWrites (outside w).
Proof. reflexivity. Qed.

Lemma sync_mirrorWrites env w :
  mirrorWrites (outside (snd (syncPendingOperations env w))) = mirrorWrites (outside w).
Proof.
  rewrite syncPendingOperations_guards. cbn [snd].
  destruct (syncInProgress (layer w)); [reflexivity|].
  destruct (negb (isOnline (layer w))); [reflexivity|].
  destruct (time_of env w - lastSyncAttempt (layer w) <? 5000)%Z; reflexivity.
Qed.

(** X7.  Replay never updates the local mirror: [syncPendingOperations],
    [manualSync] and the connectivity listener leave Firestore untouched,
    also when a replayed operation succeeds - a queued operation does not
    carry the [syncTarget] of the call that queued it. *)
Theorem X7_replay_never_updates_the_mirror env :
  (forall w,
     mirrorWrites (outside (snd (syncPendingOperations env w))) = mirrorWrites (outside w))
  /\ (forall w, mirrorWrites (outside (snd (manualSync env w))) = mirrorWrites (outside w))
  /\ (forall state w,
        mirrorWrites (outside (snd (onNetInfoChange env state w))) = mirrorWrites (outside w)).
Proof.
  split; [apply sync_mirrorWrites|]. split.
  - intros w. rewrite manualSync_run. cbn [snd].
    destruct (negb (isOnline (layer w))); [reflexivity|].
    destruct (syncInProgress (layer w)); [reflexivity | apply sync_mirrorWrites].
  - intros state w. rewrite onNetInfoChange_run. cbn [snd].
    destruct (negb (isOnline (layer w)) && reports_online state); [|reflexivity].
    rewrite sync_mirrorWrites. reflexivity.
Qed.

Lemma mirror_target_spec key d mw :
  mirror_target key d = Some mw ->
  doc_data mw = d
  /\ truthy (doc_key mw) = true
  /\ ((key = "scheduledWorkouts" /\ collection mw = "scheduledWorkouts"
       /\ property d "id" = Some (doc_key mw))
      \/ (key = "calendar" /\ collection mw = "calendarEvents"
          /\ property d "eventId" = Some (doc_key mw))).
Proof.
  unfold mirror_target.
  destruct (String.eqb_spec key "scheduledWorkouts") as [-> | Hk1]; cbn [andb].
  - destruct (property d "id") as [v|] eqn:Hid; cbn [truthy_opt].
    + destruct (truthy v) eqn:Hv.
      * intros [= <-]. cbn. repeat split; [exact Hv|]. left. repeat split.
      * cbn. discriminate.
    + cbn. discriminate.
  - destruct (String.eqb_spec key "calendar") as [-> | Hk2]; cbn [andb]; [|discriminate].
    destruct (property d "eventId") as [v|] eqn:Hid; cbn [truthy_opt]; [|discriminate].
    destruct (truthy v) eqn:Hv; [|discriminate].
    intros [= <-]. cbn. repeat split; [exact Hv|]. right. repeat split.
Qed.

Lemma mirrored_writes env key d w :
  mirrorWrites (outside (mirrored env key d w)) =
    mirrorWrites (outside w) ++ match mirror_target key d with Some mw => [mw] | None => [] end.
Proof.
  unfold mirrored. destruct (mirror_target key d); [reflexivity|].
  rewrite app_nil_r. reflexivity.
Qed.

(** X8.  [performOperation] writes to the mirror at most one document, and
    only in a call that succeeded: a queued or failed call never touches
    it.  A document it writes holds the response's data, in
    [scheduledWorkouts] under the data's [id] (for
    [syncTarget: 'scheduledWorkouts']) or in [calendarEvents] under its
    [eventId] (for [syncTarget: 'calendar']), and that key is truthy - a
    response whose [id] is [0], empty or missing is not mirrored. *)
Theorem X8_mirror_only_after_success env ep m b options w :
  exists res w' written,
    performOperation env ep m b options w = (Normal res, w')
    /\ mirrorWrites (outside w') = mirrorWrites (outside w) ++ written
    /\ (length written <= 1)%nat
    /\ (success res = false -> written = [])
    /\ Forall (fun mw =>
         data res = Some (doc_data mw)
         /\ truthy (doc_key mw) = true
         /\ ((opt_syncTarget options = Some "scheduledWorkouts"
              /\ collection mw = "scheduledWorkouts"
              /\ property (doc_data mw) "id" = Some (doc_key mw))
             \/ (opt_syncTarget options = Some "calendar"
                 /\ collection mw = "calendarEvents"
                 /\ property (doc_data mw) "eventId" = Some (doc_key mw)))) written.
Proof.
  rewrite performOperation_run. unfold performed.
  destruct (negb (isOnline (layer w)) && offlineSupport_of options).
  { eexists. eexists. exists []. cbn [fst snd]. split; [reflexivity|].
    split; [unfold pushed; simpl; rewrite app_nil_r; reflexivity|].
    split; [simpl; lia|]. split; [reflexivity | constructor]. }
  destruct (api_request env (length (requests (outside w))) (request_for m ep b))
    as [resp|e]; [destruct (is_2xx resp)|].
  - cbn [fst snd]. unfold maybe_mirrored.
    destruct (opt_syncTarget options) as [target|] eqn:Ht.
    2:{ eexists. eexists. exists []. split; [reflexivity|].
        split; [simpl; rewrite app_nil_r; reflexivity|].
        split; [simpl; lia|]. split; [reflexivity | constructor]. }
    destruct (resp_data resp) as [d|] eqn:Hd.
    2:{ eexists. eexists. exists []. split; [reflexivity|].
        split; [simpl; rewrite app_nil_r; reflexivity|].
        split; [simpl; lia|]. split; [reflexivity | constructor]. }
    destruct (negb (String.eqb target EmptyString) && truthy d).
    2:{ eexists. eexists. exists []. split; [reflexivity|].
        split; [simpl; rewrite app_nil_r; reflexivity|].
        split; [simpl; lia|]. split; [reflexivity | constructor]. }
    eexists. eexists.
    exists (match mirror_target target d with Some mw => [mw] | None => [] end).
    split; [reflexivity|]. split; [rewrite mirrored_writes; reflexivity|].
    destruct (mirror_target target d) as [mw|] eqn:Hmt.
    + destruct (mirror_target_spec target d mw Hmt) as (Hdata & Hkey & Hwhere).
      split; [simpl; lia|]. split; [discriminate|].
      constructor; [|constructor]. cbn [data]. rewrite Hdata.
      split; [reflexivity|]. split; [exact Hkey|].
      destruct Hwhere as [(-> & Hc & Hp) | (-> & Hc & Hp)]; [left | right];
        repeat split; assumption.
    + split; [simpl; lia|]. split; [reflexivity | constructor].
  - cbn [fst snd]. eexists. eexists. exists []. split; [reflexivity|].
    split; [destruct (offlineSupport_of options); unfold pushed; simpl;
            rewrite app_nil_r; reflexivity|].
    split; [simpl; lia|]. split; [reflexivity | constructor].
  - cbn [fst snd]. eexists. eexists. exists []. split; [reflexivity|].
    split; [destruct (offlineSupport_of options); unfold pushed; simpl;
            rewrite app_nil_r; reflexivity|].
    split; [simpl; lia|]. split; [reflexivity | constructor].
Qed.

(** With [syncTarget: 'scheduledWorkouts'] the response's data goes to the
    mirror under its [id]; with an [id] of [0] nothing is written. *)
Example mirror_written_under_id :
  mirrorWrites (outside (snd (performOperation env_fine schedule POST (JObj [])
                                (mkOptions None None (Some "scheduledWorkouts")) online_world)))
    = [mkMirrorWrite "scheduledWorkouts" (JNum 7) (JObj [("id", JNum 7)])]
  /\ mirror_target "scheduledWorkouts" (JObj [("id", JNum 0); ("title", JStr "Yoga")]) = None.
Proof. split; reflexivity. Qed.

(** ** Order among operations of equal rank *)

Lemma same_rank_compare x y z :
  same_rank x y = true -> same_rank x z = true -> compareOperations y z = 0.
Proof.
  unfold same_rank, compareOperations. intros Hy Hz.
  apply andb_prop in Hy as [Hy1 Hy2]. apply andb_prop in Hz as [Hz1 Hz2].
  apply Z.eqb_eq in Hy1, Hy2, Hz1, Hz2.
  assert (E : (priorityOrder (priority y) =? priorityOrder (priority z))%Z = true)
    by (apply Z.eqb_eq; lia).
  rewrite E. simpl. lia.
Qed.

Lemma sort_insert_stable x y l :
  List.filter (same_rank x) (sort_insert compareOperations y l) =
    List.filter (same_rank x) (y :: l).
Proof.
  induction l as [|z l IH]; [reflexivity|].
  cbn [sort_insert]. destruct (compareOperations y z <=? 0)%Z eqn:E; [reflexivity|].
  cbn [List.filter] in *. rewrite IH.
  destruct (same_rank x y) eqn:Hy, (same_rank x z) eqn:Hz; try reflexivity.
  rewrite (same_rank_compare x y z Hy Hz) in E. discriminate E.
Qed.

Lemma Array_sort_stable x l :
  List.filter (same_rank x) (Array_sort compareOperations l) = List.filter (same_rank x) l.
Proof.
  induction l as [|y l IH]; [reflexivity|].
  cbn [Array_sort]. rewrite sort_insert_stable. cbn [List.filter]. rewrite IH. reflexivity.
Qed.

Lemma filter_comm {A} (f g : A -> bool) l :
  List.filter f (List.filter g l) = List.filter g (List.filter f l).
Proof.
  induction l as [|x l IH]; [reflexivity|]. simpl.
  destruct (f x) eqn:Hf, (g x) eqn:Hg; simpl; rewrite ?Hf, ?Hg, IH; reflexivity.
Qed.

(** X9.  First in, first out among equals: the sort being stable and the
    comparator returning 0 for two operations of the same priority and
    timestamp, the operations of one rank that a pass attempts are
    attempted in the order in which they stand in the queue. *)
Theorem X9_equal_rank_keeps_queue_order env w x :
  lets_through env w = true ->
  let now := time_of env w in
  let attempted := List.filter (due now) (sorted_queue w) in
  requests (outside (snd (syncPendingOperations env w))) =
    requests (outside w) ++ map request_of attempted
  /\ List.filter (same_rank x) attempted =
       List.filter (same_rank x) (List.filter (due now) (queue w)).
Proof.
  intros Hlet now attempted. subst now attempted.
  rewrite syncPendingOperations_drains by exact Hlet. cbn [snd].
  split; [apply drained_requests|].
  rewrite filter_comm. unfold sorted_queue. rewrite Array_sort_stable. apply filter_comm.
Qed.

Lemma X9_equal_rank_keeps_queue_order_witness :
  same_rank twin_first twin_second = true
  /\ requests (outside (snd (syncPendingOperations env_fine twins_waiting))) =
       [request_of twin_first; request_of twin_second].
Proof.
  split; [reflexivity|].
  rewrite (proj1 (X9_equal_rank_keeps_queue_order env_fine twins_waiting twin_first eq_refl)).
  reflexivity.
Defined.

(** ** Operation ids *)

Lemma append_inv_head s a b : s +:+ a = s +:+ b -> a = b.
Proof. induction s as [|c s IH]; simpl; [auto|]. intros [= H]. apply IH. exact H. Qed.

Lemma append_underscore_split a b x y :
  underscore_free a = true -> underscore_free b = true ->
  a +:+ "_" +:+ x = b +:+ "_" +:+ y -> a = b /\ x = y.
Proof.
  revert b. induction a as [|c a IH]; intros [|c' b] Ha Hb; simpl in *.
  - intros [= H]. split; [reflexivity | exact H].
  - intros [= Hc _]. subst c'. simpl in Hb. discriminate Hb.
  - intros [= Hc _]. subst c. simpl in Ha. discriminate Ha.
  - intros [= Hc H]. subst c'.
    apply andb_prop in Ha as [_ Ha]. apply andb_prop in Hb as [_ Hb].
    destruct (IH b Ha Hb H) as [-> ->]. split; reflexivity.
Qed.

Lemma underscore_free_pretty_N_go x : forall s,
  underscore_free s = true -> underscore_free (pretty_N_go x s) = true.
Proof.
  induction (N.lt_wf_0 x) as [x _ IH]. intros s Hs.
  assert (x = 0 \/ 0 < x)%N as [-> | Hpos] by lia.
  - rewrite pretty_N_go_0. exact Hs.
  - rewrite pretty_N_go_step by exact Hpos. apply IH.
    + apply N.div_lt; [exact Hpos | reflexivity].
    + simpl. rewrite Hs, andb_true_r. unfold pretty_N_char.
      repeat case_match; reflexivity.
Qed.

Lemma underscore_free_pretty_N (x : N) : underscore_free (pretty x) = true.
Proof.
  unfold pretty, pretty_N. case_decide; [reflexivity|].
  apply underscore_free_pretty_N_go. reflexivity.
Qed.

Lemma underscore_free_pretty_Z (z : Z) : underscore_free (pretty z) = true.
Proof.
  destruct z as [|p|p]; [reflexivity | apply (underscore_free_pretty_N (Npos p)) |].
  change (pretty (Zneg p)) with ("-" +:+ pretty (Npos p)). simpl.
  apply (underscore_free_pretty_N (Npos p)).
Qed.

Lemma method_name_inj m1 m2 : method_name m1 = method_name m2 -> m1 = m2.
Proof. destruct m1, m2; simpl; intros H; try reflexivity; discriminate H. Qed.

Lemma operation_id_inj env1 env2 m1 m2 ep w1 w2 :
  operation_id env1 m1 ep w1 = operation_id env2 m2 ep w2 ->
  m1 = m2
  /\ time_of env1 w1 = time_of env2 w2
  /\ math_random env1 (randomReads (outside w1)) = math_random env2 (randomReads (outside w2)).
Proof.
  unfold operation_id. intros H.
  apply append_underscore_split in H as [Hm H];
    [| destruct m1; reflexivity | destruct m2; reflexivity].
  apply method_name_inj in Hm. split; [exact Hm|].
  apply append_inv_head in H. injection H as H.
  apply append_underscore_split in H as [Ht Hs]; [| apply underscore_free_pretty_Z ..].
  split; [|exact Hs].
  exact (pretty_Z_inj _ _ Ht).
Qed.

(** X10.  The id [performOperation] builds,
    [`${method}_${endpoint}_${Date.now()}_${suffix}`], tells apart any two
    calls for the same endpoint that differ in method, in the clock reading
    or in the random suffix: such calls never build the same id. *)
Theorem X10_operation_ids_tell_calls_apart env1 env2 m1 m2 ep w1 w2 :
  m1 <> m2
  \/ time_of env1 w1 <> time_of env2 w2
  \/ math_random env1 (randomReads (outside w1))
       <> math_random env2 (randomReads (outside w2)) ->
  operation_id env1 m1 ep w1 <> operation_id env2 m2 ep w2.
Proof.
  intros Hdiff H. apply operation_id_inj in H as (Hm & Ht & Hs).
  destruct Hdiff as [Hd | [Hd | Hd]]; contradiction.
Qed.

Lemma X10_operation_ids_tell_calls_apart_witness :
  operation_id env_fine POST schedule offline_world
    <> operation_id env_fine POST schedule after_low.
Proof.
  apply X10_operation_ids_tell_calls_apart. right. left. vm_compute. discriminate.
Defined.

(** ** Restart *)

Lemma loadPendingOperations_run rejects w :
  loadPendingOperations rejects w =
    (Normal tt,
     match rejects, storage (outside w) with
     | None, Some ops => on_layer (with_pendingOperations ops) w
     | _, _ => w
     end).
Proof.
  unfold loadPendingOperations, try_catch, bind, AsyncStorage_getItem.
  destruct rejects as [e|]; [reflexivity|].
  destruct (storage (outside w)); reflexivity.
Qed.

Lemma write_through_durable env w w' :
  write_through env w w' ->
  durable w ->
  storage_setItem env (length (setItemCalls (outside w))) = None ->
  durable w'.
Proof.
  intros [(Hq & _ & Hs) | (_ & Hs)] Hd Hsave.
  - unfold durable in *. rewrite Hq, Hs. exact Hd.
  - left. rewrite Hs, Hsave. reflexivity.
Qed.

Lemma onNetInfoChange_write_through env state w :
  write_through env w (snd (onNetInfoChange env state w)).
Proof.
  rewrite onNetInfoChange_run. cbn [snd].
  destruct (negb (isOnline (layer w)) && reports_online state);
    [|apply write_through_same; reflexivity].
  exact (sync_write_through env (on_layer (with_isOnline true) w)).
Qed.

(** X11.  Durability across a restart.  A state is durable when a restart
    followed by a successful load brings back exactly the queue in memory
    (same operations, same order, same [retryCount] and [timestamp]).  The
    initial state is durable, and every call of [performOperation],
    [syncPendingOperations], [manualSync] or the connectivity listener
    made in a durable state leaves a durable state, provided the write it
    issues (if any) resolves. *)
Theorem X11_restart_brings_back_the_queue env w :
  (durable w <-> queue (snd (loadPendingOperations None (restarted w))) = queue w)
  /\ durable initial_world
  /\ (durable w ->
      storage_setItem env (length (setItemCalls (outside w))) = None ->
      (forall ep m b options, durable (snd (performOperation env ep m b options w)))
      /\ durable (snd (syncPendingOperations env w))
      /\ durable (snd (manualSync env w))
      /\ (forall state, durable (snd (onNetInfoChange env state w)))).
Proof.
  split; [|split].
  - rewrite loadPendingOperations_run. cbn [snd]. unfold durable, restarted, queue.
    cbn [outside]. destruct (storage (outside w)) as [ops|]; cbn.
    + split; [intros [[= ->] | [H _]]; [reflexivity | discriminate H]
             | intros ->; left; reflexivity].
    + split; [intros [H | [_ ->]]; [discriminate H | reflexivity]
             | intros <-; right; split; reflexivity].
  - right. split; reflexivity.
  - intros Hd Hsave. split; [|split; [|split]].
    + intros. eapply write_through_durable; [|exact Hd | exact Hsave].
      rewrite performOperation_run. apply performed_write_through.
    + eapply write_through_durable; [apply sync_write_through | exact Hd | exact Hsave].
    + eapply write_through_durable; [|exact Hd | exact Hsave].
      rewrite manualSync_run. cbn [snd].
      destruct (negb (isOnline (layer w))); [apply write_through_same; reflexivity|].
      destruct (syncInProgress (layer w)); [apply write_through_same; reflexivity|].
      apply sync_write_through.
    + intros state. eapply write_through_durable;
        [apply onNetInfoChange_write_through | exact Hd | exact Hsave].
Qed.

Lemma X11_restart_brings_back_the_queue_witness :
  queue (snd (loadPendingOperations None
                (restarted (snd (syncPendingOperations env_refusing back_online)))))
    = queue (snd (syncPendingOperations env_refusing back_online))
  /\ map retryCount (queue (snd (syncPendingOperations env_refusing back_online)))
     = [1%nat; 1%nat; 1%nat].
Proof.
  split; [|reflexivity].
  destruct (X11_restart_brings_back_the_queue env_refusing back_online)
    as (_ & _ & Hkeep).
  destruct (Hkeep ltac:(left; reflexivity) eq_refl) as (_ & Hsync & _).
  apply (X11_restart_brings_back_the_queue env_refusing
           (snd (syncPendingOperations env_refusing back_online))).
  exact Hsync.
Defined.

(** X12.  A failed load is swallowed, and the next save then wipes what was
    stored: when [AsyncStorage.getItem] rejects at start-up the class goes
    on with an empty queue although the store still holds operations; the
    first pass that gets through the guards then writes the empty list
    over them, and the first call that is queued writes a list holding
    that one operation only (each provided its write resolves). *)
Theorem X12_failed_load_loses_the_stored_queue env e w stored :
  storage (outside w) = Some stored ->
  let loaded := loadPendingOperations (Some e) (restarted w) in
  let w1 := snd loaded in
  fst loaded = Normal tt
  /\ queue w1 = []
  /\ storage (outside w1) = Some stored
  /\ (storage_setItem env (length (setItemCalls (outside w1))) = None ->
      (lets_through env w1 = true ->
       storage (outside (snd (syncPendingOperations env w1))) = Some [])
      /\ (forall ep m b options res w',
            performOperation env ep m b options w1 = (Normal res, w') ->
            offlineSupport_of options = true ->
            success res = false ->
            storage (outside w') = Some [fresh_operation env ep m b options w1])).
Proof.
  intros Hst loaded w1. subst loaded w1. rewrite loadPendingOperations_run. cbn [fst snd].
  split; [reflexivity|]. split; [reflexivity|]. split; [exact Hst|].
  intros Hsave. split.
  - intros Hlet. rewrite syncPendingOperations_drains by exact Hlet. cbn [snd].
    unfold drained. cbn [outside storage]. rewrite Hsave.
    unfold survivors, pass_turns, sorted_queue, restarted, queue. reflexivity.
  - intros ep m b options res w' Hrun Hos Hfail.
    rewrite performOperation_run in Hrun. injection Hrun as <- <-.
    unfold performed in *. rewrite Hos in *.
    change (isOnline (layer (restarted w))) with true in *. cbn [negb andb] in *.
    destruct (api_request env (length (requests (outside (restarted w)))) (request_for m ep b))
      as [resp|e']; [destruct (is_2xx resp)|]; cbn [fst snd success] in *;
      [discriminate Hfail | |];
      unfold pushed; cbn [outside storage]; unfold stamped, requested;
      cbn [outside setItemCalls]; rewrite Hsave; reflexivity.
Qed.

Lemma X12_failed_load_loses_the_stored_queue_witness :
  storage (outside back_online) = Some (queue back_online)
  /\ length (queue back_online) = 3%nat
  /\ storage (outside (snd (syncPendingOperations env_fine
        (snd (loadPendingOperations (Some (ErrorInstance "unavailable")) (restarted back_online))))))
     = Some [].
Proof.
  split; [reflexivity|]. split; [reflexivity|].
  destruct (X12_failed_load_loses_the_stored_queue env_fine (ErrorInstance "unavailable")
              back_online (queue back_online) eq_refl) as (_ & _ & _ & Hnext).
  destruct (Hnext eq_refl) as [Hsync _].
  apply Hsync. vm_compute. reflexivity.
Defined.

(** ** The health check *)

Lemma checkHealth_run env start hd w :
  checkHealth env start hd w =
    (Normal
       (mkHealthStatus (String.eqb (health_status hd) "healthy") (connectivityStatus hd)
          (0 <? length (queue w))%nat (String.eqb (health_status hd) "unhealthy")
          (Some (time_of env w)) (time_of env (clock_read 1 w) - start),
        hd),
     if connectivityStatus hd && high_pending w
     then snd (manualSync env (clock_read 2 w))
     else clock_read 2 w).
Proof.
  unfold checkHealth, reliability_getPendingCount, reliability_hasHighPriorityPending,
    getPendingOperationsCount, hasHighPriorityPendingOperations, reliability_sync.
  unfold bind at 1. unfold gets at 1.
  unfold bind at 1. unfold gets at 1.
  unfold bind at 1. unfold Date_now at 1.
  unfold bind at 1. unfold Date_now at 1.
  cbn [outside on_outside clockReads].
  change (existsb (fun op => is_high (priority op)) (pendingOperations (layer w)))
    with (high_pending w).
  destruct (connectivityStatus hd && high_pending w).
  - unfold bind at 1. unfold bind at 1.
    match goal with |- context [manualSync env ?v] =>
      change v with (clock_read 2 w) end.
    rewrite manualSync_run. reflexivity.
  - reflexivity.
Qed.

Lemma high_pending_false w :
  Forall (fun op => priority op <> high) (queue w) -> high_pending w = false.
Proof.
  unfold high_pending. induction 1 as [|op q Hop _ IH]; [reflexivity|].
  simpl. rewrite IH. destruct (priority op); try reflexivity. contradiction Hop. reflexivity.
Qed.

Lemma manualSync_blocked_no_op env w :
  lets_through env w = false -> no_op w (snd (manualSync env w)).
Proof.
  intros Hblocked. rewrite manualSync_run. cbn [snd].
  destruct (isOnline (layer w)) eqn:Hon; cbn [negb]; [|apply turned_away_no_op].
  destruct (syncInProgress (layer w)) eqn:Hip; [apply turned_away_no_op|].
  rewrite syncPendingOperations_guards. cbn [snd]. rewrite Hip, Hon. cbn [negb].
  unfold lets_through in Hblocked. rewrite Hip, Hon in Hblocked. cbn [negb andb] in Hblocked.
  apply negb_false_iff in Hblocked. rewrite Hblocked. apply turned_away_no_op.
Qed.

(** X13.  The health check syncs for high-priority operations only.  When
    the logger reports no connectivity, or no queued operation has
    priority [high], or the class itself is offline, syncing, or inside the
    5000 ms rate limit, [checkHealth] sends nothing and leaves the fields
    of the class, the store and the mirror as they were - however many
    medium and low operations are waiting - while still reporting
    [hasPendingOperations] for them. *)
Theorem X13_health_check_syncs_for_high_priority_only env start hd w :
  connectivityStatus hd = false
  \/ Forall (fun op => priority op <> high) (queue w)
  \/ lets_through env (clock_read 2 w) = false ->
  let r := checkHealth env start hd w in
  no_op w (snd r)
  /\ exists st, fst r = Normal (st, hd)
       /\ (hasPendingOperations st = true <-> queue w <> []).
Proof.
  intros Hcase r. subst r. rewrite checkHealth_run. cbn [fst snd]. split.
  - destruct (connectivityStatus hd && high_pending w) eqn:Hsync; [|repeat split].
    apply andb_prop in Hsync as [Hconn Hhigh].
    destruct Hcase as [Hc | [Hq | Hblocked]].
    + rewrite Hc in Hconn. discriminate Hconn.
    + rewrite (high_pending_false w Hq) in Hhigh. discriminate Hhigh.
    + destruct (manualSync_blocked_no_op env (clock_read 2 w) Hblocked)
        as (H1 & H2 & H3 & H4 & H5).
      repeat split; assumption.
  - eexists. split; [reflexivity|]. cbn [hasPendingOperations].
    destruct (queue w); simpl; split; intros H; try discriminate; try reflexivity.
    contradiction H. reflexivity.
Qed.

(** X14.  The health check reports before it syncs.  When the logger
    reports connectivity, one high-priority operation is queued, the class
    is online and idle with its last pass at least 5000 ms back, the
    transport accepts every request and no queued operation has been
    retried, [checkHealth] delivers the whole queue - medium and low
    operations included, in the order of the sorted queue - and leaves it
    empty, yet the status it has set says [hasPendingOperations]. *)
Theorem X14_health_check_reports_before_it_syncs env start hd w :
  connectivityStatus hd = true ->
  Exists (fun op => priority op = high) (queue w) ->
  lets_through env (clock_read 2 w) = true ->
  always_accepts env ->
  Forall (fun op => retryCount op = 0%nat) (queue w) ->
  exists st w',
    checkHealth env start hd w = (Normal (st, hd), w')
    /\ hasPendingOperations st = true
    /\ queue w' = []
    /\ requests (outside w') = requests (outside w) ++ map request_of (sorted_queue w).
Proof.
  intros Hconn Hhigh Hlet Hacc Hall. rewrite checkHealth_run.
  assert (Hp : high_pending w = true).
  { unfold high_pending. apply existsb_exists. apply List.Exists_exists in Hhigh
      as (op & Hin & Hop). exists op. split; [exact Hin | rewrite Hop; reflexivity]. }
  rewrite Hconn, Hp. cbn [andb].
  eexists. eexists. split; [reflexivity|]. cbn [hasPendingOperations].
  split.
  - apply List.Exists_exists in Hhigh as (op & Hin & _).
    destruct (queue w); [destruct Hin | reflexivity].
  - rewrite manualSync_run. cbn [snd].
    pose proof Hlet as Hlet'. unfold lets_through in Hlet'.
    apply andb_prop in Hlet' as [Hlet' _]. apply andb_prop in Hlet' as [Hip Hon].
    apply negb_true_iff in Hip. rewrite Hon, Hip. cbn [negb].
    rewrite syncPendingOperations_drains by exact Hlet. cbn [snd].
    exact (drained_all_accepted env (clock_read 2 w) Hacc Hall).
Qed.

Lemma X13_health_check_syncs_for_high_priority_only_witness :
  map priority (queue (on_layer (with_isOnline true) after_low)) = [low]
  /\ no_op (on_layer (with_isOnline true) after_low)
       (snd (checkHealth env_fine t0 (mkHealthData "healthy" true)
               (on_layer (with_isOnline true) after_low))).
Proof.
  split; [reflexivity|].
  apply (X13_health_check_syncs_for_high_priority_only env_fine t0
           (mkHealthData "healthy" true) (on_layer (with_isOnline true) after_low)).
  right. left. repeat constructor. discriminate.
Defined.

Lemma X14_health_check_reports_before_it_syncs_witness :
  map priority (queue back_online) = [low; high; medium]
  /\ exists st w',
       checkHealth env_fine t0 (mkHealthData "healthy" true) back_online
         = (Normal (st, mkHealthData "healthy" true), w')
       /\ hasPendingOperations st = true
       /\ queue w' = []
       /\ requests (outside w')
          = requests (outside back_online) ++ map request_of (sorted_queue back_online).
Proof.
  split; [reflexivity|].
  apply (X14_health_check_reports_before_it_syncs env_fine t0
           (mkHealthData "healthy" true) back_online eq_refl).
  - apply Exists_cons_tl, Exists_cons_hd. reflexivity.
  - vm_compute. reflexivity.
  - exact env_fine_always_accepts.
  - repeat constructor.
Defined.

(** ** From the call to the replay *)

Lemma request_of_fresh env ep m b options w :
  request_of (fresh_operation env ep m b options w) = request_for m ep b.
Proof. destruct m; reflexivity. Qed.

Lemma queued_offline env ep m b options w :
  isOnline (layer w) = false ->
  offlineSupport_of options = true ->
  let w1 := snd (performOperation env ep m b options w) in
  queue w1 = queue w ++ [fresh_operation env ep m b options w]
  /\ layer w1 = with_pendingOperations (queue w1) (layer w)
  /\ requests (outside w1) = requests (outside w)
  /\ clockReads (outside w1) = S (S (clockReads (outside w))).
Proof.
  intros Hoff Hos w1. subst w1. rewrite performOperation_run. unfold performed.
  rewrite Hoff, Hos. cbn [negb andb snd]. repeat split.
Qed.

(** X15.  What is queued offline is replayed as it was asked.  A call made
    offline with [offlineSupport] on sends nothing; when the next
    connectivity event reports online and the sync it triggers gets
    through the guards, that one pass sends the very request the call
    would have sent online (same method, endpoint and body; no body for
    DELETE), whatever else is queued and whatever the transport answers. *)
Theorem X15_queued_call_is_replayed_as_asked env ep m b options state w :
  isOnline (layer w) = false ->
  offlineSupport_of options = true ->
  reports_online state = true ->
  syncInProgress (layer w) = false ->
  5000 <= date_now env (S (S (clockReads (outside w)))) - lastSyncAttempt (layer w) ->
  let w1 := snd (performOperation env ep m b options w) in
  let w2 := snd (onNetInfoChange env state w1) in
  requests (outside w1) = requests (outside w)
  /\ exists sent,
       requests (outside w2) = requests (outside w) ++ sent
       /\ In (request_for m ep b) sent
       /\ (length sent <= S (length (queue w)))%nat.
Proof.
  intros Hoff Hos Hon Hip Hrate w1 w2.
  destruct (queued_offline env ep m b options w Hoff Hos) as (Hq & Hl & Hr & Hc).
  fold w1 in Hq, Hl, Hr, Hc. split; [exact Hr|].
  subst w2. rewrite onNetInfoChange_run. cbn [snd].
  assert (Hoff1 : isOnline (layer w1) = false) by (rewrite Hl; exact Hoff).
  rewrite Hoff1, Hon. cbn [negb andb].
  set (w1' := on_layer (with_isOnline true) w1).
  assert (Hlet : lets_through env w1' = true).
  { unfold lets_through, time_of, w1'. cbn [layer outside on_layer]. rewrite Hl, Hc.
    cbn [with_isOnline with_pendingOperations syncInProgress isOnline lastSyncAttempt].
    rewrite Hip. cbn [negb andb]. apply negb_true_iff, Z.ltb_ge. exact Hrate. }
  rewrite syncPendingOperations_drains by exact Hlet. cbn [snd].
  rewrite drained_requests.
  change (requests (outside w1')) with (requests (outside w1)). rewrite Hr.
  eexists. split; [reflexivity|]. split.
  - rewrite <- (request_of_fresh env ep m b options w). apply in_map.
    apply List.filter_In. split; [|apply due_fresh; reflexivity].
    unfold sorted_queue.
    apply (Permutation_in _ (Permutation_sym (Array_sort_Permutation compareOperations _))).
    change (queue w1') with (queue w1). rewrite Hq. apply in_or_app. right. left. reflexivity.
  - rewrite length_map. etransitivity; [apply List.filter_length_le|].
    unfold sorted_queue.
    rewrite (Permutation_length (Array_sort_Permutation compareOperations _)).
    change (queue w1') with (queue w1). rewrite Hq, length_app. simpl. lia.
Qed.

Lemma X15_queued_call_is_replayed_as_asked_witness :
  exists sent,
    requests (outside (snd (onNetInfoChange env_throwing wifi_back
                 (snd (performOperation env_throwing schedule DELETE (JObj []) no_options
                         offline_world)))))
      = requests (outside offline_world) ++ sent
    /\ In (mkRequest DELETE schedule None) sent
    /\ (length sent <= 1)%nat.
Proof.
  destruct (X15_queued_call_is_replayed_as_asked env_throwing schedule DELETE (JObj [])
              no_options wifi_back offline_world eq_refl eq_refl eq_refl eq_refl
              ltac:(vm_compute; discriminate)) as [_ H].
  exact H.
Defined.

(** ** The bookkeeping fields *)


Lemma performed_bookkeeping env ep m b options w :
  let w' := snd (performed env ep m b options w) in
  syncInProgress (layer w') = syncInProgress (layer w)
  /\ isOnline (layer w') = isOnline (layer w)
  /\ lastSyncAttempt (layer w') = lastSyncAttempt (layer w).
Proof.
  cbv zeta. unfold performed.
  destruct (negb (isOnline (layer w)) && offlineSupport_of options); [repeat split|].
  destruct (api_request env (length (requests (outside w))) (request_for m ep b))
    as [resp|e]; [destruct (is_2xx resp)|]; cbn [snd].
  - destruct (maybe_mirrored_fields env options resp
                (requested (request_for m ep b) (stamped w))) as (-> & _).
    repeat split.
  - destruct (offlineSupport_of options); repeat split.
  - destruct (offlineSupport_of options); repeat split.
Qed.


(** ** Start-up *)

Lemma onInitialNetInfo_run state w :
  onInitialNetInfo state w = (Normal tt, on_layer (with_isOnline (reports_online state)) w).
Proof. reflexivity. Qed.

Lemma online_events_change_nothing env events : forall w,
  isOnline (layer w) = true ->
  Forall (fun state => reports_online state = true) events ->
  connectivity_events env events w = w.
Proof.
  induction events as [|state events IH]; intros w Hon Hall; [reflexivity|].
  inversion Hall as [|? ? Hstate Hrest]; subst.
  unfold connectivity_events. cbn [fold_left]. rewrite onNetInfoChange_run. cbn [snd].
  rewrite Hon, Hstate. cbn [negb andb].
  assert (Hw : on_layer (with_isOnline true) w = w).
  { destruct w as [[on q ip last] o]. cbn in Hon. subst on. reflexivity. }
  rewrite Hw. apply IH; assumption.
Qed.

(** X17.  The initial network check never syncs, and it can swallow a
    reconnect.  The callback of [NetInfo.fetch()] only sets [isOnline];
    when it reports online, the class is online for the listener from
    then on, so no later event reporting online is a reconnect: whatever
    is queued (loaded at start-up, or queued while offline) is not sent by
    the check nor by any number of such events, and waits for another
    trigger. *)
Theorem X17_initial_check_never_syncs env initial events w :
  only_connectivity_changed w (snd (onInitialNetInfo initial w))
  /\ (reports_online initial = true ->
      Forall (fun state => reports_online state = true) events ->
      let w' := connectivity_events env events (snd (onInitialNetInfo initial w)) in
      only_connectivity_changed w w' /\ isOnline (layer w') = true).
Proof.
  rewrite onInitialNetInfo_run. cbn [snd]. split; [repeat split|].
  intros Hinit Hall. cbv zeta. rewrite Hinit.
  rewrite online_events_change_nothing by (try exact Hall; reflexivity).
  repeat split.
Qed.

Lemma X17_initial_check_never_syncs_witness :
  let started := snd (loadPendingOperations None (restarted back_online)) in
  let w' := connectivity_events env_fine [wifi_back; wifi_back]
              (snd (onInitialNetInfo wifi_back started)) in
  length (queue started) = 3%nat
  /\ only_connectivity_changed started w'
  /\ isOnline (layer w') = true.
Proof.
  cbv zeta. split; [reflexivity|].
  destruct (X17_initial_check_never_syncs env_fine wifi_back [wifi_back; wifi_back]
              (snd (loadPendingOperations None (restarted back_online)))) as [_ H].
  apply H; [reflexivity | repeat constructor].
Defined.

(** ** The exported object *)

Lemma plain_call_run env c w :
  plain_call env c w =
    match c with
    | plain_post ep b => (Normal (fst (performed env ep POST b no_options w)),
                          snd (performed env ep POST b no_options w))
    | plain_put ep b => (Normal (fst (performed env ep PUT b no_options w)),
                         snd (performed env ep PUT b no_options w))
    | plain_delete ep => (Normal (fst (performed env ep DELETE (JObj []) no_options w)),
                          snd (performed env ep DELETE (JObj []) no_options w))
    end.
Proof.
  destruct c; unfold plain_call, reliability_post, reliability_put, reliability_delete;
    cbn [default]; apply performOperation_run.
Qed.

Lemma performed_plain env ep m b w :
  let r := performed env ep m b no_options w in
  mirrorWrites (outside (snd r)) = mirrorWrites (outside w)
  /\ (success (fst r) = true /\ queue (snd r) = queue w
      \/ success (fst r) = false
         /\ exists op, queue (snd r) = queue w ++ [op]
              /\ priority op = medium /\ retryCount op = 0%nat
              /\ request_of op = request_for m ep b).
Proof.
  cbv zeta. unfold performed.
  change (offlineSupport_of no_options) with true. rewrite andb_true_r.
  assert (Hreq : forall i t, request_of (mkOp i ep m b t 0%nat medium) = request_for m ep b)
    by (intros; destruct m; reflexivity).
  destruct (negb (isOnline (layer w))).
  { cbn [fst snd success]. split; [reflexivity|]. right. split; [reflexivity|].
    eexists. split; [reflexivity|]. split; [reflexivity|]. split; [reflexivity | apply Hreq]. }
  destruct (api_request env (length (requests (outside w))) (request_for m ep b))
    as [resp|e]; [destruct (is_2xx resp)|]; cbn [fst snd success].
  - split; [reflexivity|]. left. split; reflexivity.
  - split; [reflexivity|]. right. split; [reflexivity|].
    eexists. split; [reflexivity|]. split; [reflexivity|]. split; [reflexivity | apply Hreq].
  - split; [reflexivity|]. right. split; [reflexivity|].
    eexists. split; [reflexivity|]. split; [reflexivity|]. split; [reflexivity | apply Hreq].
Qed.

(** X18.  A call of [reliability.post], [put] or [delete] with [options]
    left out never writes to the Firestore mirror, even when it succeeds;
    when it does not succeed it is queued once, at priority [medium], to
    be replayed as the request it stands for (a DELETE without body,
    although [{}] is stored as its body).  Such calls therefore never
    change what [hasHighPriorityPending] answers, so they never make the
    health check sync. *)
Theorem X18_calls_without_options env c w :
  exists res w',
    plain_call env c w = (Normal res, w')
    /\ mirrorWrites (outside w') = mirrorWrites (outside w)
    /\ (if success res then queue w' = queue w
        else exists op, queue w' = queue w ++ [op]
               /\ priority op = medium /\ retryCount op = 0%nat
               /\ request_of op = plain_request c)
    /\ fst (reliability_hasHighPriorityPending w') = fst (reliability_hasHighPriorityPending w).
Proof.
  rewrite plain_call_run.
  assert (H : forall ep m b, request_for m ep b = plain_request c ->
    exists res w',
      (Normal (fst (performed env ep m b no_options w)),
       snd (performed env ep m b no_options w)) = (Normal res, w')
      /\ mirrorWrites (outside w') = mirrorWrites (outside w)
      /\ (if success res then queue w' = queue w
          else exists op, queue w' = queue w ++ [op]
                 /\ priority op = medium /\ retryCount op = 0%nat
                 /\ request_of op = plain_request c)
      /\ fst (reliability_hasHighPriorityPending w')
         = fst (reliability_hasHighPriorityPending w)).
  { intros ep m b Hc. eexists. eexists. split; [reflexivity|].
    destruct (performed_plain env ep m b w) as (Hm & Hq). split; [exact Hm|].
    unfold reliability_hasHighPriorityPending, hasHighPriorityPendingOperations, gets.
    cbn [fst]. fold (queue (snd (performed env ep m b no_options w))). fold (queue w).
    destruct Hq as [[-> Hq] | [-> (op & Hq & Hp & Hr & Hreq)]].
    - split; [exact Hq | rewrite Hq; reflexivity].
    - split; [exists op; rewrite <- Hc; repeat split; assumption|].
      rewrite Hq, existsb_app. cbn [existsb]. rewrite Hp. cbn [is_high orb].
      rewrite orb_false_r. reflexivity. }
  destruct c; apply H; reflexivity.
Qed.

(** ** The window after a pass *)

(** X19.  A pass closes the window for what is queued right after it.
    Once a call of [syncPendingOperations] has got through the guards -
    even with nothing queued - an operation handed to [performOperation]
    afterwards cannot be flushed by [manualSync] as long as the clock
    shows less than 5000 ms since that pass started: [manualSync] answers
    [true] and sends nothing, the operation stays where the call left
    it. *)
Theorem X19_a_pass_closes_the_window env ep m b options w :
  lets_through env w = true ->
  let w1 := snd (syncPendingOperations env w) in
  let w2 := snd (performOperation env ep m b options w1) in
  time_of env w2 - time_of env w < 5000 ->
  fst (manualSync env w2) = Normal true
  /\ no_op w2 (snd (manualSync env w2)).
Proof.
  intros Hlet w1 w2 Hsoon.
  assert (H1 : isOnline (layer w1) = true /\ syncInProgress (layer w1) = false
               /\ lastSyncAttempt (layer w1) = time_of env w).
  { subst w1. rewrite syncPendingOperations_drains by exact Hlet. cbn [snd].
    unfold lets_through in Hlet. apply andb_prop in Hlet as [Hlet _].
    apply andb_prop in Hlet as [_ Hon]. repeat split. exact Hon. }
  destruct H1 as (Hon1 & Hip1 & Hlast1).
  assert (H2 : syncInProgress (layer w2) = false /\ isOnline (layer w2) = true
               /\ lastSyncAttempt (layer w2) = time_of env w).
  { subst w2. rewrite performOperation_run. cbn [snd].
    destruct (performed_bookkeeping env ep m b options w1) as (Ha & Hb & Hc).
    cbv zeta in Ha, Hb, Hc.
    rewrite Ha, Hb, Hc. repeat split; assumption. }
  destruct H2 as (Hip2 & Hon2 & Hlast2).
  rewrite manualSync_run. cbn [fst snd]. rewrite Hon2, Hip2. cbn [negb andb].
  split; [reflexivity|].
  rewrite syncPendingOperations_guards. cbn [snd]. rewrite Hip2, Hon2, Hlast2. cbn [negb].
  apply Z.ltb_lt in Hsoon. rewrite Hsoon. apply turned_away_no_op.
Qed.

Lemma X19_a_pass_closes_the_window_witness :
  let w2 := snd (performOperation env_throwing schedule POST (JObj []) no_options
                   (snd (syncPendingOperations env_throwing online_world))) in
  length (queue w2) = 1%nat
  /\ fst (manualSync env_throwing w2) = Normal true
  /\ no_op w2 (snd (manualSync env_throwing w2)).
Proof.
  cbv zeta. split; [reflexivity|].
  apply (X19_a_pass_closes_the_window env_throwing schedule POST (JObj []) no_options
           online_world eq_refl).
  vm_compute. reflexivity.
Defined.
